(** * An upgradable ERC-20 token behind a transparent dispatcher

    Shallow embedding of the two implementation contracts of the tutorial,
    [ERC20UpgradableV1] and [ERC20UpgradableV2], and of the dispatcher /
    upgrade controller they are deployed behind ([upgrades.deployProxy] with
    [kind: "transparent"], [upgrades.upgradeProxy]).

    The contracts are translated from their Solidity text.  The contracts
    they inherit from (Initializable, ERC20Upgradeable,
    ERC20BurnableUpgradeable, PausableUpgradeable, OwnableUpgradeable) and the
    proxy itself are library code that is not part of the repository: they
    are modelled here, each under a comment that says so. *)

From Stdlib Require Import NArith Lia.
From stdpp Require Import base option numbers strings list gmap fin_maps.

Open Scope N_scope.

(** ** Words, identities and values *)

(** Solidity [address]: a 160-bit word; [address(0)] is [0]. *)
Abbreviation address := N.

Definition MAX_UINT256 : N := 2 ^ 256 - 1.
Definition MAX_UINT8 : N := 255.
Definition MAX_ADDRESS : N := 2 ^ 160 - 1.

(** Arguments and results of a call, as the ABI carries them. *)
Inductive val :=
| VUnit
| VBool (b : bool)
| VUint (n : N)
| VAddr (a : address)
| VStr (s : string).

(** ** Failures *)

(** The error taxonomy of the core, plus the two ways implementation code
    aborts: a failed [require] (with its reason string) and an arithmetic
    panic of checked Solidity 0.8 arithmetic. *)
Inductive failure :=
| Uninitialized
| AlreadyInitialized
| Unauthorized
| MigrationFailure
| UnknownImplementation
| NoSuchSelector
| BadArguments
| Revert (reason : string)
| Panic.

Inductive result (A : Type) :=
| Ok (a : A)
| Err (e : failure).
Arguments Ok {A} a.
Arguments Err {A} e.

(** ** The storage region of an Instance, as the implementations declare it

    One field per state variable of the inheritance chain
    [Initializable, ERC20Upgradeable, ERC20BurnableUpgradeable,
    PausableUpgradeable, OwnableUpgradeable], followed by the variable that
    [ERC20UpgradableV2] appends.  A Solidity mapping is a finite map whose
    absent keys read as the zero value. *)
Record Business := mkBusiness {
  (* Initializable *)
  _initialized : N;                   (* uint8 *)
  _initializing : bool;
  (* ERC20Upgradeable *)
  _balances : gmap N N;               (* mapping(address => uint256) *)
  _allowances : gmap (N * N) N;       (* address => address => uint256 *)
  _totalSupply : N;                   (* uint256 *)
  _name : string;
  _symbol : string;
  (* PausableUpgradeable *)
  _paused : bool;
  (* OwnableUpgradeable *)
  _owner : N;                         (* address *)
  (* ERC20UpgradableV2 *)
  whitelistedAddresses : gmap N bool  (* mapping(address => bool) *)
}.

(** Fresh storage: every slot holds zero. *)
Definition empty_storage : Business :=
  {| _initialized := 0; _initializing := false;
     _balances := ∅; _allowances := ∅; _totalSupply := 0;
     _name := EmptyString; _symbol := EmptyString;
     _paused := false; _owner := 0;
     whitelistedAddresses := ∅ |}.

Definition set_initialized (v : N) (st : Business) : Business :=
  mkBusiness v (_initializing st) (_balances st) (_allowances st)
    (_totalSupply st) (_name st) (_symbol st) (_paused st) (_owner st)
    (whitelistedAddresses st).
Definition set_initializing (v : bool) (st : Business) : Business :=
  mkBusiness (_initialized st) v (_balances st) (_allowances st)
    (_totalSupply st) (_name st) (_symbol st) (_paused st) (_owner st)
    (whitelistedAddresses st).
Definition set_balances (v : gmap N N) (st : Business) : Business :=
  mkBusiness (_initialized st) (_initializing st) v (_allowances st)
    (_totalSupply st) (_name st) (_symbol st) (_paused st) (_owner st)
    (whitelistedAddresses st).
Definition set_allowances (v : gmap (N * N) N) (st : Business) : Business :=
  mkBusiness (_initialized st) (_initializing st) (_balances st) v
    (_totalSupply st) (_name st) (_symbol st) (_paused st) (_owner st)
    (whitelistedAddresses st).
Definition set_totalSupply (v : N) (st : Business) : Business :=
  mkBusiness (_initialized st) (_initializing st) (_balances st)
    (_allowances st) v (_name st) (_symbol st) (_paused st) (_owner st)
    (whitelistedAddresses st).
Definition set_name (v : string) (st : Business) : Business :=
  mkBusiness (_initialized st) (_initializing st) (_balances st)
    (_allowances st) (_totalSupply st) v (_symbol st) (_paused st)
    (_owner st) (whitelistedAddresses st).
Definition set_symbol (v : string) (st : Business) : Business :=
  mkBusiness (_initialized st) (_initializing st) (_balances st)
    (_allowances st) (_totalSupply st) (_name st) v (_paused st)
    (_owner st) (whitelistedAddresses st).
Definition set_paused (v : bool) (st : Business) : Business :=
  mkBusiness (_initialized st) (_initializing st) (_balances st)
    (_allowances st) (_totalSupply st) (_name st) (_symbol st) v
    (_owner st) (whitelistedAddresses st).
Definition set_owner (v : N) (st : Business) : Business :=
  mkBusiness (_initialized st) (_initializing st) (_balances st)
    (_allowances st) (_totalSupply st) (_name st) (_symbol st) (_paused st)
    v (whitelistedAddresses st).
Definition set_whitelistedAddresses (v : gmap N bool) (st : Business)
  : Business :=
  mkBusiness (_initialized st) (_initializing st) (_balances st)
    (_allowances st) (_totalSupply st) (_name st) (_symbol st) (_paused st)
    (_owner st) v.

(** Reading a mapping: an absent key is the zero value of the value type. *)
Definition balance_at (st : Business) (a : address) : N :=
  default 0 (_balances st !! a).
Definition allowance_at (st : Business) (o s : address) : N :=
  default 0 (_allowances st !! (o, s)).
Definition whitelisted_at (st : Business) (a : address) : bool :=
  default false (whitelistedAddresses st !! a).

(** ** Contract code as a state-and-failure monad

    A function body reads and writes the storage it runs against and may
    abort; an abort discards every write made so far (the host's
    all-or-nothing call semantics). *)
Definition M (A : Type) : Type := Business → result (A * Business).

Definition ret {A} (a : A) : M A := λ st, Ok (a, st).
Definition bind {A B} (m : M A) (k : A → M B) : M B :=
  λ st, match m st with
        | Ok (a, st') => k a st'
        | Err e => Err e
        end.
Definition fail {A} (e : failure) : M A := λ _, Err e.
Definition read {A} (f : Business → A) : M A := λ st, Ok (f st, st).
Definition write (f : Business → Business) : M unit := λ st, Ok (tt, f st).

Declare Scope contract_scope.
Delimit Scope contract_scope with contract.
Notation "'let*' x ':=' m 'in' k" := (bind m (λ x, k))
  (at level 10, x name, m at level 100, k at level 200) : contract_scope.
Notation "m ';;' k" := (bind m (λ _, k))
  (at level 100, k at level 200, right associativity) : contract_scope.
Open Scope contract_scope.

(** Solidity [require(cond, reason)]. *)
Definition require (cond : bool) (reason : string) : M unit :=
  if cond then ret tt else fail (Revert reason).

(** Checked [a + b] on [uint256]: panics on overflow. *)
Definition checked_add (a b : N) : M N :=
  if a + b <=? MAX_UINT256 then ret (a + b) else fail Panic.

(** [unchecked { a + b }] and [unchecked { a - b }] on [uint256]: wrap
    around. *)
Definition unchecked_add (a b : N) : N := (a + b) mod 2 ^ 256.
Definition unchecked_sub (a b : N) : N := (a + 2 ^ 256 - b) mod 2 ^ 256.

(** ** Library contracts the implementations inherit from

    Both implementations import Initializable, ERC20Upgradeable,
    ERC20BurnableUpgradeable, PausableUpgradeable and OwnableUpgradeable
    from the OpenZeppelin upgradeable contracts; their text is not part of
    the repository.  Where the specification speaks (the Initializer Guard
    of section 4.3, the failure [AlreadyInitialized]) the model follows it,
    with the spec's [initialized] flag read as [_initialized ≠ 0].  Where it
    leaves the behaviour to the implementation (token, pause and ownership
    rules) the model follows the 4.x release line of the library, the one
    the contracts' text is written against ([_disableInitializers],
    [_beforeTokenTransfer], argument-less [__Ownable_init]).  Events are not
    modelled.  [sender] is [_msgSender()]. *)
Module Lib.

(** *** Initializable *)

(** Modelled from the spec: [modifier initializer] of Initializable, the
    Initializer Guard of section 4.3.  Precondition: not yet initialized
    (and no initializer running); effect: mark initialized, run the body,
    all within the one call; otherwise fail with [AlreadyInitialized].  The
    library's extra clause for initializers nested inside a constructor
    concerns code that runs while a contract is still being constructed
    and is left out: every call modelled here reaches a deployed contract. *)
Definition initializer {A} (body : M A) : M A :=
  let* isTopLevelCall := read (λ st, negb (_initializing st)) in
  let* v := read _initialized in
  (if isTopLevelCall && (v <? 1) then ret tt else fail AlreadyInitialized);;
  write (set_initialized 1);;
  (if isTopLevelCall then write (set_initializing true) else ret tt);;
  let* r := body in
  (if isTopLevelCall then write (set_initializing false) else ret tt);;
  ret r.

(** Modelled from the spec: [modifier onlyInitializing] of Initializable;
    the setup logic of section 4.3 runs only inside an initializer. *)
Definition onlyInitializing {A} (body : M A) : M A :=
  let* i := read _initializing in
  require i "Initializable: contract is not initializing";;
  body.

(** Modelled from the spec: [_disableInitializers()] of Initializable,
    called by both constructors.  The specification does not describe it;
    as in the library, it moves the guard word of the contract it runs on
    to its maximum, which no initializer accepts. *)
Definition _disableInitializers : M unit :=
  let* i := read _initializing in
  require (negb i) "Initializable: contract is initializing";;
  let* v := read _initialized in
  if v =? MAX_UINT8 then ret tt else write (set_initialized MAX_UINT8).

(** *** PausableUpgradeable *)

(** Modelled from the spec: [__Pausable_init] of PausableUpgradeable
    (business logic the specification leaves open): starts unpaused. *)
Definition __Pausable_init : M unit :=
  onlyInitializing (write (set_paused false)).

(** Modelled from the spec: [paused()] of PausableUpgradeable. *)
Definition paused : M bool := read _paused.

(** Modelled from the spec: [modifier whenNotPaused] of
    PausableUpgradeable. *)
Definition whenNotPaused {A} (body : M A) : M A :=
  let* p := paused in
  require (negb p) "Pausable: paused";;
  body.

(** Modelled from the spec: [modifier whenPaused] of PausableUpgradeable. *)
Definition whenPaused {A} (body : M A) : M A :=
  let* p := paused in
  require p "Pausable: not paused";;
  body.

(** Modelled from the spec: [_pause()] of PausableUpgradeable. *)
Definition _pause : M unit := whenNotPaused (write (set_paused true)).

(** Modelled from the spec: [_unpause()] of PausableUpgradeable. *)
Definition _unpause : M unit := whenPaused (write (set_paused false)).

(** *** OwnableUpgradeable *)

(** Modelled from the spec: [owner()] of OwnableUpgradeable. *)
Definition owner : M address := read _owner.

(** Modelled from the spec: [_transferOwnership] of OwnableUpgradeable. *)
Definition _transferOwnership (newOwner : address) : M unit :=
  write (set_owner newOwner).

(** Modelled from the spec: [__Ownable_init] of OwnableUpgradeable: the
    caller of [initialize] becomes the owner. *)
Definition __Ownable_init (sender : address) : M unit :=
  onlyInitializing (_transferOwnership sender).

(** Modelled from the spec: [modifier onlyOwner] of OwnableUpgradeable. *)
Definition onlyOwner {A} (sender : address) (body : M A) : M A :=
  let* o := owner in
  require (o =? sender) "Ownable: caller is not the owner";;
  body.

(** Modelled from the spec: [renounceOwnership()] of OwnableUpgradeable. *)
Definition renounceOwnership (sender : address) : M unit :=
  onlyOwner sender (_transferOwnership 0).

(** Modelled from the spec: [transferOwnership(newOwner)] of
    OwnableUpgradeable. *)
Definition transferOwnership (sender newOwner : address) : M unit :=
  onlyOwner sender
    (require (negb (newOwner =? 0)) "Ownable: new owner is the zero address";;
     _transferOwnership newOwner).

(** *** ERC20Upgradeable and ERC20BurnableUpgradeable *)

(** Modelled from the spec: [_beforeTokenTransfer] of ERC20Upgradeable, the
    [super] both overrides call; its body is empty. *)
Definition super_beforeTokenTransfer (from to : address) (amount : N)
  : M unit := ret tt.

Section ERC20.

(** The virtual hook, as the inheriting implementation overrides it. *)
Variable _beforeTokenTransfer : address → address → N → M unit.

(** Modelled from the spec: [__ERC20_init] of ERC20Upgradeable. *)
Definition __ERC20_init (name_ symbol_ : string) : M unit :=
  onlyInitializing (write (set_name name_);; write (set_symbol symbol_)).

(** Modelled from the spec: [__ERC20Burnable_init] of
    ERC20BurnableUpgradeable; it sets nothing. *)
Definition __ERC20Burnable_init : M unit := onlyInitializing (ret tt).

(** Modelled from the spec: [name()] of ERC20Upgradeable. *)
Definition name : M string := read _name.

(** Modelled from the spec: [symbol()] of ERC20Upgradeable. *)
Definition symbol : M string := read _symbol.

(** Modelled from the spec: [decimals()] of ERC20Upgradeable. *)
Definition decimals : M N := ret 18.

(** Modelled from the spec: [totalSupply()] of ERC20Upgradeable. *)
Definition totalSupply : M N := read _totalSupply.

(** Modelled from the spec: [balanceOf(account)] of ERC20Upgradeable. *)
Definition balanceOf (account : address) : M N :=
  read (λ st, balance_at st account).

(** Modelled from the spec: [allowance(owner, spender)] of
    ERC20Upgradeable. *)
Definition allowance (owner spender : address) : M N :=
  read (λ st, allowance_at st owner spender).

(** Modelled from the spec: [_approve] of ERC20Upgradeable. *)
Definition _approve (owner spender : address) (amount : N) : M unit :=
  require (negb (owner =? 0)) "ERC20: approve from the zero address";;
  require (negb (spender =? 0)) "ERC20: approve to the zero address";;
  write (λ st, set_allowances
                 (<[(owner, spender) := amount]> (_allowances st)) st).

(** Modelled from the spec: [_spendAllowance] of ERC20Upgradeable; an
    allowance of [type(uint256).max] is never decreased. *)
Definition _spendAllowance (owner spender : address) (amount : N)
  : M unit :=
  let* currentAllowance := allowance owner spender in
  if currentAllowance =? MAX_UINT256 then ret tt
  else
    require (amount <=? currentAllowance) "ERC20: insufficient allowance";;
    _approve owner spender (currentAllowance - amount).

(** Modelled from the spec: [_transfer] of ERC20Upgradeable. *)
Definition _transfer (from to : address) (amount : N) : M unit :=
  require (negb (from =? 0)) "ERC20: transfer from the zero address";;
  require (negb (to =? 0)) "ERC20: transfer to the zero address";;
  _beforeTokenTransfer from to amount;;
  let* fromBalance := balanceOf from in
  require (amount <=? fromBalance) "ERC20: transfer amount exceeds balance";;
  write (λ st, set_balances
                 (<[from := fromBalance - amount]> (_balances st)) st);;
  write (λ st, set_balances
                 (<[to := unchecked_add (balance_at st to) amount]>
                    (_balances st)) st).

(** Modelled from the spec: [_mint] of ERC20Upgradeable.  The specification
    only says that minting adds [amount] to the balance (section 8,
    property 6); the zero-address guard is the library's, the overflow
    check on the total supply is Solidity 0.8 checked arithmetic. *)
Definition _mint (account : address) (amount : N) : M unit :=
  require (negb (account =? 0)) "ERC20: mint to the zero address";;
  _beforeTokenTransfer 0 account amount;;
  let* supply := totalSupply in
  let* supply' := checked_add supply amount in
  write (set_totalSupply supply');;
  write (λ st, set_balances
                 (<[account := unchecked_add (balance_at st account) amount]>
                    (_balances st)) st).

(** Modelled from the spec: [_burn] of ERC20Upgradeable. *)
Definition _burn (account : address) (amount : N) : M unit :=
  require (negb (account =? 0)) "ERC20: burn from the zero address";;
  _beforeTokenTransfer account 0 amount;;
  let* accountBalance := balanceOf account in
  require (amount <=? accountBalance) "ERC20: burn amount exceeds balance";;
  write (λ st, set_balances
                 (<[account := accountBalance - amount]> (_balances st)) st);;
  write (λ st, set_totalSupply (unchecked_sub (_totalSupply st) amount) st).

(** Modelled from the spec: [transfer] of ERC20Upgradeable. *)
Definition transfer (sender to : address) (amount : N) : M bool :=
  _transfer sender to amount;; ret true.

(** Modelled from the spec: [approve] of ERC20Upgradeable. *)
Definition approve (sender spender : address) (amount : N) : M bool :=
  _approve sender spender amount;; ret true.

(** Modelled from the spec: [transferFrom] of ERC20Upgradeable. *)
Definition transferFrom (sender from to : address) (amount : N)
  : M bool :=
  _spendAllowance from sender amount;;
  _transfer from to amount;;
  ret true.

(** Modelled from the spec: [increaseAllowance] of ERC20Upgradeable. *)
Definition increaseAllowance (sender spender : address) (addedValue : N)
  : M bool :=
  let* current := allowance sender spender in
  let* sum := checked_add current addedValue in
  _approve sender spender sum;;
  ret true.

(** Modelled from the spec: [decreaseAllowance] of ERC20Upgradeable. *)
Definition decreaseAllowance (sender spender : address)
    (subtractedValue : N) : M bool :=
  let* currentAllowance := allowance sender spender in
  require (subtractedValue <=? currentAllowance)
    "ERC20: decreased allowance below zero";;
  _approve sender spender (currentAllowance - subtractedValue);;
  ret true.

(** Modelled from the spec: [burn] of ERC20BurnableUpgradeable. *)
Definition burn (sender : address) (amount : N) : M unit :=
  _burn sender amount.

(** Modelled from the spec: [burnFrom] of ERC20BurnableUpgradeable. *)
Definition burnFrom (sender account : address) (amount : N) : M unit :=
  _spendAllowance account sender amount;;
  _burn account amount.

End ERC20.

End Lib.

(** ** Implementations as function tables *)

(** A public function as the dispatcher sees it: the caller identity
    ([msg.sender]) and the ABI-encoded arguments in, a value out. *)
Definition method : Type := address → list val → M val.

(** The state variables an implementation may declare, the value a storage
    position holds, and the position's content for each variable. *)
Inductive field :=
| F_initialized | F_initializing
| F_balances | F_allowances | F_totalSupply | F_name | F_symbol
| F_paused | F_owner
| F_whitelistedAddresses.

Global Instance field_eq_dec : EqDecision field.
Proof. solve_decision. Defined.



(** An Implementation: immutable code (constructor and function table) with
    a version identifier and the order in which it declares its fields. *)
Record implementation := mkImplementation {
  impl_version : string;
  impl_layout : list field;
  impl_constructor : M unit;
  impl_methods : list (string * method)
}.

Fixpoint lookup_method (sel : string) (tbl : list (string * method))
  : option method :=
  match tbl with
  | [] => None
  | (name, m) :: tbl' =>
      if String.eqb name sel then Some m else lookup_method sel tbl'
  end.

Definition defines (impl : implementation) (sel : string) : bool :=
  match lookup_method sel (impl_methods impl) with
  | Some _ => true
  | None => false
  end.

(** *** ABI decoding

    Arguments are decoded by position against the parameter types; words
    that do not fit the type abort the call, trailing calldata is ignored. *)
Definition is_address (a : N) : bool := a <=? MAX_ADDRESS.
Definition is_uint256 (n : N) : bool := n <=? MAX_UINT256.

Definition enc_unit (_ : unit) : val := VUnit.

Definition abi0 {A} (enc : A → val) (f : M A) : list val → M val :=
  λ _, let* r := f in ret (enc r).

Definition abi_a {A} (enc : A → val) (f : address → M A)
  : list val → M val :=
  λ args, match args with
          | VAddr a :: _ =>
              if is_address a then let* r := f a in ret (enc r)
              else fail BadArguments
          | _ => fail BadArguments
          end.

Definition abi_u {A} (enc : A → val) (f : N → M A) : list val → M val :=
  λ args, match args with
          | VUint n :: _ =>
              if is_uint256 n then let* r := f n in ret (enc r)
              else fail BadArguments
          | _ => fail BadArguments
          end.

Definition abi_aa {A} (enc : A → val) (f : address → address → M A)
  : list val → M val :=
  λ args, match args with
          | VAddr a :: VAddr b :: _ =>
              if is_address a && is_address b
              then let* r := f a b in ret (enc r)
              else fail BadArguments
          | _ => fail BadArguments
          end.

Definition abi_au {A} (enc : A → val) (f : address → N → M A)
  : list val → M val :=
  λ args, match args with
          | VAddr a :: VUint n :: _ =>
              if is_address a && is_uint256 n
              then let* r := f a n in ret (enc r)
              else fail BadArguments
          | _ => fail BadArguments
          end.

Definition abi_aau {A} (enc : A → val) (f : address → address → N → M A)
  : list val → M val :=
  λ args, match args with
          | VAddr a :: VAddr b :: VUint n :: _ =>
              if is_address a && is_address b && is_uint256 n
              then let* r := f a b n in ret (enc r)
              else fail BadArguments
          | _ => fail BadArguments
          end.

(** Modelled from the spec: the public functions both implementations
    inherit unchanged from the library contracts, given the
    implementation's override of the transfer hook. *)
Definition inherited_methods
    (_beforeTokenTransfer : address → address → N → M unit)
  : list (string * method) :=
  [ ("name", λ _, abi0 VStr Lib.name);
    ("symbol", λ _, abi0 VStr Lib.symbol);
    ("decimals", λ _, abi0 VUint Lib.decimals);
    ("totalSupply", λ _, abi0 VUint Lib.totalSupply);
    ("balanceOf", λ _, abi_a VUint Lib.balanceOf);
    ("transfer", λ sender,
       abi_au VBool (Lib.transfer _beforeTokenTransfer sender));
    ("allowance", λ _, abi_aa VUint Lib.allowance);
    ("approve", λ sender, abi_au VBool (Lib.approve sender));
    ("transferFrom", λ sender,
       abi_aau VBool (Lib.transferFrom _beforeTokenTransfer sender));
    ("increaseAllowance", λ sender,
       abi_au VBool (Lib.increaseAllowance sender));
    ("decreaseAllowance", λ sender,
       abi_au VBool (Lib.decreaseAllowance sender));
    ("burn", λ sender, abi_u enc_unit (Lib.burn _beforeTokenTransfer sender));
    ("burnFrom", λ sender,
       abi_au enc_unit (Lib.burnFrom _beforeTokenTransfer sender));
    ("paused", λ _, abi0 VBool Lib.paused);
    ("owner", λ _, abi0 VAddr Lib.owner);
    ("renounceOwnership", λ sender,
       abi0 enc_unit (Lib.renounceOwnership sender));
    ("transferOwnership", λ sender,
       abi_a enc_unit (Lib.transferOwnership sender)) ].

(** ** contract ERC20UpgradableV1 *)
Module V1.

Definition constructor : M unit := Lib._disableInitializers.

Definition initialize (sender : address) : M unit :=
  Lib.initializer
    (Lib.__ERC20_init "ERC20Upgradable" "EUC";;
     Lib.__ERC20Burnable_init;;
     Lib.__Pausable_init;;
     Lib.__Ownable_init sender).

Definition pause (sender : address) : M unit :=
  Lib.onlyOwner sender Lib._pause.

Definition unpause (sender : address) : M unit :=
  Lib.onlyOwner sender Lib._unpause.

Definition _beforeTokenTransfer (from to : address) (amount : N)
  : M unit :=
  Lib.whenNotPaused (Lib.super_beforeTokenTransfer from to amount).

Definition mint (to : address) (amount : N) : M unit :=
  Lib._mint _beforeTokenTransfer to amount.

Definition layout : list field :=
  [ F_initialized; F_initializing;
    F_balances; F_allowances; F_totalSupply; F_name; F_symbol;
    F_paused; F_owner ].

Definition methods : list (string * method) :=
  [ ("initialize", λ sender, abi0 enc_unit (initialize sender));
    ("pause", λ sender, abi0 enc_unit (pause sender));
    ("unpause", λ sender, abi0 enc_unit (unpause sender));
    ("mint", λ _, abi_au enc_unit mint) ]
  ++ inherited_methods _beforeTokenTransfer.

Definition impl : implementation :=
  mkImplementation "ERC20UpgradableV1" layout constructor methods.

End V1.

(** ** contract ERC20UpgradableV2 *)
Module V2.

Definition constructor : M unit := Lib._disableInitializers.

Definition addUser (sender _addressToWhitelist : address) : M unit :=
  Lib.onlyOwner sender
    (write (λ st, set_whitelistedAddresses
                    (<[_addressToWhitelist := true]> (whitelistedAddresses st))
                    st)).

Definition verifyUser (_whitelistedAddress : address) : M bool :=
  let* userIsWhitelisted :=
    read (λ st, whitelisted_at st _whitelistedAddress) in
  ret userIsWhitelisted.

Definition initialize (sender : address) : M unit :=
  Lib.initializer
    (Lib.__ERC20_init "ERC20Upgradable" "EUC";;
     Lib.__ERC20Burnable_init;;
     Lib.__Pausable_init;;
     Lib.__Ownable_init sender).

Definition pause (sender : address) : M unit :=
  Lib.onlyOwner sender Lib._pause.

Definition unpause (sender : address) : M unit :=
  Lib.onlyOwner sender Lib._unpause.

Definition _beforeTokenTransfer (from to : address) (amount : N)
  : M unit :=
  Lib.whenNotPaused (Lib.super_beforeTokenTransfer from to amount).

Definition mint (to : address) (amount : N) : M unit :=
  let* ok := verifyUser to in
  require ok EmptyString;;
  Lib._mint _beforeTokenTransfer to amount.

Definition layout : list field :=
  [ F_initialized; F_initializing;
    F_balances; F_allowances; F_totalSupply; F_name; F_symbol;
    F_paused; F_owner;
    F_whitelistedAddresses ].

Definition methods : list (string * method) :=
  [ ("addUser", λ sender, abi_a enc_unit (addUser sender));
    ("verifyUser", λ _, abi_a VBool verifyUser);
    ("initialize", λ sender, abi0 enc_unit (initialize sender));
    ("pause", λ sender, abi0 enc_unit (pause sender));
    ("unpause", λ sender, abi0 enc_unit (unpause sender));
    ("mint", λ _, abi_au enc_unit mint) ]
  ++ inherited_methods _beforeTokenTransfer.

Definition impl : implementation :=
  mkImplementation "ERC20UpgradableV2" layout constructor methods.

End V2.

(** ** The core: registry, Instance, upgrade controller, dispatcher

    The proxy that [upgrades.deployProxy] creates and [upgrades.upgradeProxy]
    drives is library code; the repository holds only the two scripts that
    call it.  The definitions of this part follow sections 3, 4.1, 4.4, 4.5
    and 6 of the specification. *)

(** *** Implementation Registry *)

Abbreviation impl_id := nat.
Abbreviation registry := (list implementation).

(** Modelled from the spec: [register] of the Implementation Registry
    (section 4.4), absent from src/.  Registration is append-only; the id
    is the position, so a binding never changes. *)
Definition register (impl : implementation) (reg : registry)
  : registry * impl_id :=
  (reg ++ [impl], length reg).

(** Modelled from the spec: [resolve] of the Implementation Registry
    (section 4.4), absent from src/: a pure lookup. *)
Definition resolve (reg : registry) (id : impl_id) : option implementation :=
  reg !! id.

(** The registry of the tutorial: V1 is registered first, then V2. *)
Definition ID_V1 : impl_id := 0%nat.
Definition ID_V2 : impl_id := 1%nat.
Definition tutorial_registry : registry :=
  fst (register V2.impl (fst (register V1.impl []))).

(** *** Instance *)

(** Modelled from the spec: the UpgradeRecord of section 3. *)
Record UpgradeRecord := mkUpgradeRecord {
  ur_timestamp : N;
  from_implementation : option impl_id;
  to_implementation : impl_id;
  authorizer : address
}.

(** Modelled from the spec: the Instance of section 3.  Metadata namespace
    ([active_implementation], [admin_identity], the upgrade log) and
    business namespace ([storage]).  The [initialized] flag of the
    specification is the guard word the implementations themselves declare
    first, [_initialized] in [storage]. *)
Record Instance := mkInstance {
  active_implementation : option impl_id;
  admin_identity : address;
  upgrade_log : list UpgradeRecord;
  storage : Business
}.

Definition set_active (id : impl_id) (s : Instance) : Instance :=
  mkInstance (Some id) (admin_identity s) (upgrade_log s) (storage s).
Definition set_admin (a : address) (s : Instance) : Instance :=
  mkInstance (active_implementation s) a (upgrade_log s) (storage s).
Definition append_record (r : UpgradeRecord) (s : Instance) : Instance :=
  mkInstance (active_implementation s) (admin_identity s)
    (upgrade_log s ++ [r]) (storage s).
Definition set_storage (st : Business) (s : Instance) : Instance :=
  mkInstance (active_implementation s) (admin_identity s) (upgrade_log s) st.

(** What the host tells the callee about a call. *)
Record Env := mkEnv {
  caller_identity : address;
  timestamp : N
}.

(** Modelled from the spec: the deployment tool of section 6
    ([upgrades.deployProxy]), absent from src/: a fresh Instance bound to
    an initial implementation id and an admin; [initialize] is the
    deployer's first call. *)
Definition deploy (initial : impl_id) (admin : address) : Instance :=
  mkInstance (Some initial) admin [] empty_storage.

(** *** Forwarding *)

(** Modelled from the spec: the delegatecall-equivalent of sections 4.1 and
    9, absent from src/.  The implementation's function runs against the
    Instance's own storage; its failure is returned verbatim and commits
    nothing. *)
Definition forward (impl : implementation) (env : Env) (sel : string)
    (args : list val) (s : Instance) : result (val * Instance) :=
  match lookup_method sel (impl_methods impl) with
  | None => Err NoSuchSelector
  | Some m =>
      match m (caller_identity env) args (storage s) with
      | Ok (v, st') => Ok (v, set_storage st' s)
      | Err e => Err e
      end
  end.

(** *** Upgrade Controller *)

(** Modelled from the spec: [upgrade] of the Upgrade Controller (section
    4.5), absent from src/.  Precondition: the caller is the admin and the
    id resolves.  As one unit: set the active implementation, forward the
    migration call (if any) to the new implementation, append an
    UpgradeRecord; a failing migration call fails the whole upgrade. *)
Definition upgrade (reg : registry) (env : Env)
    (new_implementation_id : impl_id)
    (optional_migration_call : option (string * list val)) (s : Instance)
  : result (val * Instance) :=
  if negb (caller_identity env =? admin_identity s) then Err Unauthorized
  else
    match resolve reg new_implementation_id with
    | None => Err UnknownImplementation
    | Some impl =>
        let s1 := set_active new_implementation_id s in
        let migrated :=
          match optional_migration_call with
          | None => Ok s1
          | Some (sel, args) =>
              match forward impl env sel args s1 with
              | Ok (_, s2) => Ok s2
              | Err _ => Err MigrationFailure
              end
          end in
        match migrated with
        | Err e => Err e
        | Ok s2 =>
            Ok (VUnit,
                append_record
                  (mkUpgradeRecord (timestamp env) (active_implementation s)
                     new_implementation_id (caller_identity env)) s2)
        end
    end.

(** Modelled from the spec: [transferAdmin] of the Upgrade Controller
    (section 4.5), absent from src/: same authorization as [upgrade]. *)
Definition transferAdmin (env : Env) (new_admin_identity : address)
    (s : Instance) : result (val * Instance) :=
  if negb (caller_identity env =? admin_identity s) then Err Unauthorized
  else Ok (VUnit, set_admin new_admin_identity s).

(** *** Dispatcher *)

(** Modelled from the spec: the reserved management operations of section
    6, [upgrade] and [transferAdmin].  [initialize] is not routed as one:
    in the contracts the Initializer Guard is the [initializer] modifier on
    the implementation's own [initialize], so the call is forwarded like
    any other selector, for every caller, and the guard runs there. *)
Definition is_management (sel : string) : bool :=
  String.eqb sel "upgrade" || String.eqb sel "transferAdmin".

(** Modelled from the spec: the management logic the Dispatcher hands a
    management call to (section 4.1), absent from src/.  A management call
    carries its operands as ordinary arguments: [upgrade(id)], or
    [upgrade(id, selector, args...)] with a migration call, and
    [transferAdmin(identity)]. *)
Definition manage (reg : registry) (env : Env) (sel : string)
    (args : list val) (s : Instance) : result (val * Instance) :=
  if String.eqb sel "upgrade" then
    match args with
    | [VUint id] => upgrade reg env (N.to_nat id) None s
    | VUint id :: VStr msel :: margs =>
        upgrade reg env (N.to_nat id) (Some (msel, margs)) s
    | _ => Err BadArguments
    end
  else
    match args with
    | VAddr a :: _ => transferAdmin env a s
    | _ => Err BadArguments
    end.

(** The code the active implementation id resolves to, if any. *)
Definition active_code (reg : registry) (s : Instance)
  : option implementation :=
  match active_implementation s with
  | Some id => resolve reg id
  | None => None
  end.

(** Modelled from the spec: [handle] of the Dispatcher (section 4.1),
    absent from src/.  Caller identity first, selector second: a management
    selector from the admin goes to the management logic; from anyone else
    it is forwarded if the active implementation defines it and fails with
    [Unauthorized] otherwise.  Every other selector is forwarded; with no
    active implementation that fails with [Uninitialized]. *)
Definition handle (reg : registry) (env : Env) (sel : string)
    (args : list val) (s : Instance) : result (val * Instance) :=
  if is_management sel then
    if caller_identity env =? admin_identity s then manage reg env sel args s
    else
      match active_code reg s with
      | Some impl =>
          if defines impl sel then forward impl env sel args s
          else Err Unauthorized
      | None => Err Unauthorized
      end
  else
    match active_code reg s with
    | Some impl => forward impl env sel args s
    | None => Err Uninitialized
    end.

(** *** The host's call semantics *)

Inductive outcome :=
| Success (v : val)
| Failure (e : failure).

(** Modelled from the spec: the host execution environment of sections 1
    and 5.  A call either commits all its effects or leaves the Instance
    exactly as it was before the call began. *)
Definition exec (reg : registry) (env : Env) (sel : string)
    (args : list val) (s : Instance) : Instance * outcome :=
  match handle reg env sel args s with
  | Ok (v, s') => (s', Success v)
  | Err e => (s, Failure e)
  end.

(** A call as it arrives. *)
Record call := mkCall {
  call_env : Env;
  call_selector : string;
  call_args : list val
}.

(** The Instance after one call, and after a sequence of calls run one
    after another (section 5: strictly sequential). *)
Definition step (reg : registry) (s : Instance) (c : call) : Instance :=
  fst (exec reg (call_env c) (call_selector c) (call_args c) s).

Definition run (reg : registry) (s : Instance) (cs : list call) : Instance :=
  fold_left (step reg) cs s.

(** States an Instance of the tutorial can be in: deployed on a registered
    implementation, then any calls by anyone.  The zero address has no key,
    so no call originates from it. *)
Inductive reachable : Instance → Prop :=
| reachable_deploy initial admin :
    is_Some (resolve tutorial_registry initial) →
    reachable (deploy initial admin)
| reachable_step s c :
    reachable s →
    caller_identity (call_env c) ≠ 0 →
    reachable (step tutorial_registry s c).

(** *** Storage layout *)




(** ** Direct calls to an implementation contract

    An implementation is itself a deployed contract with a storage region
    of its own, set up by its constructor; a direct call runs its code
    against that region and not against any Instance. *)
Definition constructed (impl : implementation) : option Business :=
  match impl_constructor impl empty_storage with
  | Ok (_, st) => Some st
  | Err _ => None
  end.

Definition direct_call (impl : implementation) (sender : address)
    (sel : string) (args : list val) (st : Business)
  : result (val * Business) :=
  match lookup_method sel (impl_methods impl) with
  | None => Err NoSuchSelector
  | Some m => m sender args st
  end.

Definition direct_step (impl : implementation) (st : Business)
    (c : call) : Business :=
  match direct_call impl (caller_identity (call_env c)) (call_selector c)
          (call_args c) st with
  | Ok (_, st') => st'
  | Err _ => st
  end.

(** ** Reasoning about function tables *)
(** A relation between a call of a public function (its selector, caller
    and arguments, the storage before) and a successful result. *)
Definition method_spec : Type :=
  string → address → list val → Business → val → Business → Prop.

Definition satisfies (R : method_spec) (tbl : list (string * method)) : Prop :=
  Forall (λ p, ∀ sender args st v st',
              p.2 sender args st = Ok (v, st') →
              R p.1 sender args st v st') tbl.

Definition tutorial_satisfies (R : method_spec) : Prop :=
  satisfies R V1.methods ∧ satisfies R V2.methods.

(** ** What one call can do to an Instance *)
(** The function an incoming call ends up running, if any: the selector
    itself, or the migration call bundled with an upgrade. *)
Inductive invokes : call → string → list val → Prop :=
| invokes_direct env sel args :
    invokes (mkCall env sel args) sel args
| invokes_migration env id sel args :
    invokes (mkCall env "upgrade" (VUint id :: VStr sel :: args)) sel args.

Inductive transition (reg : registry) (s : Instance) (c : call)
  : Instance → Prop :=
| tr_none : transition reg s c s
| tr_business id impl m v st' :
    active_implementation s = Some id →
    resolve reg id = Some impl →
    lookup_method (call_selector c) (impl_methods impl) = Some m →
    m (caller_identity (call_env c)) (call_args c) (storage s) = Ok (v, st') →
    transition reg s c (set_storage st' s)
| tr_transferAdmin a :
    caller_identity (call_env c) = admin_identity s →
    call_selector c = "transferAdmin" →
    transition reg s c (set_admin a s)
| tr_upgrade id impl r :
    caller_identity (call_env c) = admin_identity s →
    call_selector c = "upgrade" →
    resolve reg id = Some impl →
    transition reg s c (append_record r (set_active id s))
| tr_upgrade_migrate id impl r sel args m v st' :
    caller_identity (call_env c) = admin_identity s →
    invokes c sel args →
    call_selector c = "upgrade" →
    resolve reg id = Some impl →
    lookup_method sel (impl_methods impl) = Some m →
    m (caller_identity (call_env c)) args (storage s) = Ok (v, st') →
    transition reg s c
      (append_record r (set_storage st' (set_active id s))).

(** The whitelist changes only through [addUser], which sets one entry. *)
Definition whitelist_source : method_spec :=
  λ sel _ args st _ st',
    whitelistedAddresses st' = whitelistedAddresses st ∨
    (sel = "addUser" ∧ ∃ a rest, args = VAddr a :: rest ∧
       whitelistedAddresses st' = <[a := true]> (whitelistedAddresses st)).

(** The initializer guard outside a running initializer: the version word
    moves from 0 to 1 at most, and no function leaves the guard open. *)
Definition guard_steps : method_spec :=
  λ _ _ _ st _ st',
    _initializing st = false →
    _initializing st' = false ∧
    (_initialized st' = _initialized st ∨
     (_initialized st = 0 ∧ _initialized st' = 1)).

(** While paused, no function that completes has touched a balance or the
    total supply. *)
Definition paused_frozen : method_spec :=
  λ _ _ _ st _ st',
    _paused st = true →
    _balances st' = _balances st ∧ _totalSupply st' = _totalSupply st.

(** The functions that move tokens. *)
Definition transfer_selectors : list string :=
  ["mint"; "burn"; "burnFrom"; "transfer"; "transferFrom"].

Definition is_transfer_selector (sel : string) : bool :=
  existsb (String.eqb sel) transfer_selectors.

(** While paused, none of them completes. *)
Definition paused_reverts : method_spec :=
  λ sel _ _ st _ _, _paused st = true → is_transfer_selector sel = false.

(** A function that flips the pause flag was called by the owner, on
    storage that is initialized or not paused. *)
Definition pause_by_owner : method_spec :=
  λ _ sender _ st _ st',
    (_initialized st = 0 → _paused st = false) →
    _paused st' ≠ _paused st → sender = _owner st.

(** Storage that was never initialized has no owner and is not paused, as
    long as the zero address calls nothing. *)
Definition unowned (st : Business) : Prop :=
  _initialized st = 0 → _owner st = 0 ∧ _paused st = false.

Definition keeps_unowned : method_spec :=
  λ _ sender _ st _ st', sender ≠ 0 → unowned st → unowned st'.

(** The sum of all balances, and the accounting invariant of the token:
    it equals the total supply, which fits a [uint256]. *)
Definition sum_balances (m : gmap N N) : N :=
  map_fold (λ _ v acc, v + acc) 0 m.

Definition supply_ok (st : Business) : Prop :=
  sum_balances (_balances st) = _totalSupply st ∧
  _totalSupply st ≤ MAX_UINT256.

Definition keeps_supply : method_spec :=
  λ _ _ _ st _ st', supply_ok st → supply_ok st'.

(** What holds of the storage of every reachable Instance. *)
Definition guard_closed (st : Business) : Prop :=
  _initializing st = false ∧ _initialized st ≤ 1.

Record invariant (s : Instance) : Prop := mkInvariant {
  inv_active :
    ∃ id impl, active_implementation s = Some id ∧
               resolve tutorial_registry id = Some impl;
  inv_guard : guard_closed (storage s);
  inv_unowned : unowned (storage s);
  inv_supply : supply_ok (storage s)
}.

(** The storage [initialize] leaves behind when it runs on [st] for caller
    [sender]. *)
Definition initialized_storage (sender : address) (st : Business) : Business :=
  set_initializing false
    (set_owner sender
       (set_paused false
          (set_symbol "EUC"
             (set_name "ERC20Upgradable"
                (set_initializing true (set_initialized 1 st)))))).

(** The storage a successful [_mint] leaves behind. *)
Definition minted (to : address) (amount : N) (st : Business) : Business :=
  let st1 := set_totalSupply (_totalSupply st + amount) st in
  set_balances
    (<[to := unchecked_add (balance_at st1 to) amount]> (_balances st1)) st1.

(** The storage a successful [addUser] leaves behind. *)
Definition whitelisted (a : address) (st : Business) : Business :=
  set_whitelistedAddresses (<[a := true]> (whitelistedAddresses st)) st.

(** Concrete Instances used as examples: deployed on V1 with admin 7,
    initialized by 9, and with 100 tokens minted to 5 on a call by 5. *)
Definition demo_deployed : Instance := deploy ID_V1 7.
Definition demo_initialized : Instance :=
  step tutorial_registry demo_deployed (mkCall (mkEnv 9 1000) "initialize" []).
Definition demo_minted : Instance :=
  step tutorial_registry demo_initialized
    (mkCall (mkEnv 5 1001) "mint" [VAddr 5; VUint 100]).
Definition demo_upgraded : Instance :=
  step tutorial_registry demo_minted
    (mkCall (mkEnv 7 1002) "upgrade" [VUint 1]).

(** [verifyUser] is a view: it writes nothing. *)
Definition verifyUser_pure : method_spec :=
  λ sel _ _ st _ st', sel = "verifyUser" → st' = st.

(** The storage of an implementation contract after its constructor ran:
    the initializers are disabled. *)
Definition locked (st : Business) : Prop :=
  _initialized st = MAX_UINT8 ∧ _initializing st = false.

Definition demo_whitelisted : Instance :=
  step tutorial_registry demo_upgraded
    (mkCall (mkEnv 9 1003) "addUser" [VAddr 5]).
Definition demo_paused : Instance :=
  step tutorial_registry demo_minted (mkCall (mkEnv 9 1002) "pause" []).

(** The storage of an implementation contract that has received the direct
    calls [cs] since its construction. *)
Definition direct_run (impl : implementation) (st : Business)
    (cs : list call) : Business :=
  fold_left (direct_step impl) cs st.

(** ** Further specifications *)

(** With no owner left, the functions reserved to the owner are out of
    reach: the owner stays the zero address, and the pause flag and the
    whitelist stay as they are. *)
Definition renounced_frozen : method_spec :=
  λ _ sender _ st _ st',
    sender ≠ 0 →
    _owner st = 0 → _initialized st ≠ 0 →
    (_owner st' = 0 ∧ _initialized st' ≠ 0) ∧
    _paused st' = _paused st ∧
    whitelistedAddresses st' = whitelistedAddresses st.

(** What a completed [mint] call has done, under either implementation: it
    decoded a non-zero recipient and an amount, ran unpaused, and wrote the
    total supply and the recipient's balance. *)
Definition mint_effect : method_spec :=
  λ sel _ args st _ st',
    sel = "mint" →
    ∃ to amount rest,
      args = VAddr to :: VUint amount :: rest ∧
      to ≠ 0 ∧ _paused st = false ∧
      _totalSupply st + amount ≤ MAX_UINT256 ∧
      st' = minted to amount st.

(** The selectors V2 adds or changes with respect to V1. *)
Definition V2_changes : list string := ["mint"; "addUser"; "verifyUser"].

(** ** The scripts *)

(** Modelled from the spec: [upgrades.deployProxy] of the deployment plugin,
    which [scripts/deploy.js] calls and whose text is not in the
    repository.  Section 6 of the specification: the tool creates an
    Instance bound to an initial implementation id and invokes the
    initializer as part of the same operation; a failing initializer fails
    the deployment. *)
Definition deployProxy (reg : registry) (impl : implementation)
    (args : list val) (initializer : string) (deployer admin : address)
    (now : N) : result (registry * Instance) :=
  let (reg', id) := register impl reg in
  match handle reg' (mkEnv deployer now) initializer args (deploy id admin) with
  | Ok (_, s) => Ok (reg', s)
  | Err e => Err e
  end.

(** Modelled from the spec: [upgrades.upgradeProxy] of the deployment plugin,
    which [scripts/upgrade.js] calls and whose text is not in the
    repository: it registers the new implementation and calls [upgrade] on
    the Instance, without a migration call. *)
Definition upgradeProxy (reg : registry) (s : Instance)
    (impl : implementation) (env : Env) : result (registry * Instance) :=
  let (reg', id) := register impl reg in
  match handle reg' env "upgrade" [VUint (N.of_nat id)] s with
  | Ok (_, s') => Ok (reg', s')
  | Err e => Err e
  end.

(** [main] of [scripts/deploy.js], run by [deployer] on a chain where
    nothing is registered yet. *)
Definition deploy_main (deployer admin : address) (now : N)
  : result (registry * Instance) :=
  deployProxy [] V1.impl [] "initialize" deployer admin now.

(** [main] of [scripts/upgrade.js], run against the Instance [s] that
    [deploy_main] created. *)
Definition upgrade_main (reg : registry) (s : Instance) (env : Env)
  : result (registry * Instance) :=
  upgradeProxy reg s V2.impl env.

(** More example Instances: the owner has renounced ownership; the zero
    address has been whitelisted. *)
Definition demo_renounced : Instance :=
  step tutorial_registry demo_minted
    (mkCall (mkEnv 9 1002) "renounceOwnership" []).
Definition demo_zero_listed : Instance :=
  step tutorial_registry demo_upgraded
    (mkCall (mkEnv 9 1003) "addUser" [VAddr 0]).

(** No function credits the zero address. *)
Definition zero_balance_kept : method_spec :=
  λ _ _ _ st _ st', balance_at st 0 = 0 → balance_at st' 0 = 0.

(** ** A selector clash *)

(** Modelled from the spec: the selector clash of sections 4.1 and 7, an
    implementation that declares a function under a reserved management
    name.  No contract of the repository does; this one is V1 with a
    business function called [transferAdmin] that hands the token's
    ownership to its argument. *)
Definition clash_impl : implementation :=
  mkImplementation "Clash" V1.layout V1.constructor
    (("transferAdmin",
      λ _, abi_a enc_unit (λ a, Lib._transferOwnership a)) :: V1.methods).

Definition clash_registry : registry := fst (register clash_impl []).

(** An Instance on the clashing implementation: admin 7, initialized and
    owned by 9. *)
Definition demo_clash : Instance :=
  step clash_registry (deploy 0 7) (mkCall (mkEnv 9 1000) "initialize" []).

(** ** An implementation contract called directly *)

(** Outside an initializer, no function writes the token's name or
    symbol. *)
Definition setup_kept : method_spec :=
  λ _ _ _ st _ st',
    _initialized st ≠ 0 →
    _name st' = _name st ∧ _symbol st' = _symbol st.

(** The V1 implementation contract's own storage after its constructor and
    three direct calls: 5 mints itself 100, sends 30 to 6 and approves 6
    for 7. *)
Definition demo_implementation_storage : Business :=
  direct_run V1.impl (set_initialized MAX_UINT8 empty_storage)
    [mkCall (mkEnv 5 1000) "mint" [VAddr 5; VUint 100];
     mkCall (mkEnv 5 1001) "transfer" [VAddr 6; VUint 30];
     mkCall (mkEnv 5 1002) "approve" [VAddr 6; VUint 7]].

(** * Properties *)

(** ** Function tables *)

Lemma satisfies_lookup R tbl sel m sender args st v st' :
  satisfies R tbl →
  lookup_method sel tbl = Some m →
  m sender args st = Ok (v, st') →
  R sel sender args st v st'.
Proof.
  induction 1 as [|[name m0] tbl H _ IH]; simpl; [done|].
  destruct (String.eqb_spec name sel) as [->|_]; [|exact IH].
  intros [= ->]. apply H.
Qed.

Lemma resolve_tutorial id impl :
  resolve tutorial_registry id = Some impl →
  (id = ID_V1 ∧ impl = V1.impl) ∨ (id = ID_V2 ∧ impl = V2.impl).
Proof.
  unfold resolve, tutorial_registry; simpl.
  destruct id as [|[|id]]; simpl; intros; simplify_eq; auto.
Qed.

Lemma tutorial_satisfies_lookup R id impl sel m sender args st v st' :
  tutorial_satisfies R →
  resolve tutorial_registry id = Some impl →
  lookup_method sel (impl_methods impl) = Some m →
  m sender args st = Ok (v, st') →
  R sel sender args st v st'.
Proof.
  intros [H1 H2] [[_ ->]|[_ ->]]%resolve_tutorial; simpl; intros Hm Hrun.
  - exact (satisfies_lookup _ _ _ _ _ _ _ _ _ H1 Hm Hrun).
  - exact (satisfies_lookup _ _ _ _ _ _ _ _ _ H2 Hm Hrun).
Qed.

Ltac unfold_contract :=
  cbv beta delta
    [V1.initialize V1.pause V1.unpause V1.mint V1._beforeTokenTransfer
     V2.initialize V2.pause V2.unpause V2.mint V2._beforeTokenTransfer
     V2.addUser V2.verifyUser V1.constructor V2.constructor
     Lib.initializer Lib.onlyInitializing Lib._disableInitializers
     Lib.__Pausable_init Lib.paused Lib.whenNotPaused Lib.whenPaused
     Lib._pause Lib._unpause Lib.owner Lib._transferOwnership
     Lib.__Ownable_init Lib.onlyOwner Lib.renounceOwnership
     Lib.transferOwnership Lib.super_beforeTokenTransfer Lib.__ERC20_init
     Lib.__ERC20Burnable_init Lib.name Lib.symbol Lib.decimals
     Lib.totalSupply Lib.balanceOf Lib.allowance Lib._approve
     Lib._spendAllowance Lib._transfer Lib._mint Lib._burn Lib.transfer
     Lib.approve Lib.transferFrom Lib.increaseAllowance
     Lib.decreaseAllowance Lib.burn Lib.burnFrom
     abi0 abi_a abi_u abi_aa abi_au abi_aau enc_unit
     bind ret fail read write require checked_add] in *.

(** Case analysis along the branches a successful run has taken. *)
Ltac crunch :=
  repeat first
    [ progress simplify_eq/=
    | match goal with
      | H : context [match ?x with _ => _ end] |- _ => destruct x eqn:?
      end ].

Ltac each_method :=
  unfold satisfies;
  repeat first [apply List.Forall_nil | apply List.Forall_cons];
  simpl; intros sender args st v st' Hrun;
  unfold_contract; crunch.

Lemma forward_Ok impl env sel args s v s' :
  forward impl env sel args s = Ok (v, s') →
  ∃ m st', lookup_method sel (impl_methods impl) = Some m ∧
           m (caller_identity env) args (storage s) = Ok (v, st') ∧
           s' = set_storage st' s.
Proof. unfold forward. intros; crunch; eauto. Qed.

Lemma step_transition reg s c : transition reg s c (step reg s c).
Proof.
  destruct c as [env sel args].
  unfold step, exec; simpl.
  destruct (handle _ _ _ _ _) as [[v s']|e] eqn:H; simpl; [|constructor].
  unfold handle, manage, upgrade, transferAdmin, active_code,
    is_management in H.
  destruct (String.eqb_spec sel "upgrade") as [->|?]; simpl in H;
    [|destruct (String.eqb_spec sel "transferAdmin") as [->|?]; simpl in H].
  all: repeat match goal with
         | H : forward _ _ _ _ _ = Ok _ |- _ =>
             apply forward_Ok in H as (? & ? & ? & ? & ->)
         | H : (_ =? _) = true |- _ => apply N.eqb_eq in H
         | H : negb _ = false |- _ => apply negb_false_iff in H
         | H : String.eqb _ _ = true |- _ => apply String.eqb_eq in H as ->
         | _ => progress simplify_eq/=
         | H : context [match ?x with _ => _ end] |- _ => destruct x eqn:?
         end;
    try (by econstructor; eauto);
    try (by eapply tr_upgrade_migrate; eauto; constructor).
Qed.

(** ** Properties of the public functions of V1 and V2

Each is proved once per function table, along the branches of a
    successful run. *)

Lemma tutorial_whitelist_source : tutorial_satisfies whitelist_source.
Proof.
  split; each_method; unfold whitelist_source; try (by left); right; eauto.
Qed.

Lemma V1_whitelist_untouched :
  satisfies (λ _ _ _ st _ st',
               whitelistedAddresses st' = whitelistedAddresses st) V1.methods.
Proof. each_method; done. Qed.

Lemma tutorial_guard_steps : tutorial_satisfies guard_steps.
Proof.
  split; each_method; unfold guard_steps; intros; simplify_eq/=;
    try (by auto).
  all: split; [done|right; split; [|done]].
  all: match goal with
       | H : (_ <? 1) = true |- _ => apply N.ltb_lt in H; lia
       end.
Qed.

Ltac paused_contradiction :=
  by repeat match goal with
       | H : _paused ?b = true, H' : context [_paused ?b] |- _ =>
           rewrite H in H'; simpl in H'
       end.

Lemma tutorial_paused_frozen : tutorial_satisfies paused_frozen.
Proof.
  split; each_method; unfold paused_frozen; intros; simplify_eq/=;
    try (by auto).
  all: paused_contradiction.
Qed.

Lemma tutorial_paused_reverts : tutorial_satisfies paused_reverts.
Proof.
  split; each_method; unfold paused_reverts; intros; simplify_eq/=.
  all: try paused_contradiction.
  all: reflexivity.
Qed.

Lemma tutorial_pause_by_owner : tutorial_satisfies pause_by_owner.
Proof.
  split; each_method; unfold pause_by_owner; simpl; intros Hu Hch;
    try done.
  all: try match goal with
         | H : (_ =? _) = true |- _ => by apply N.eqb_eq in H
         end.
  all: match goal with
       | H : (_ <? 1) = true |- _ =>
           apply N.ltb_lt in H; rewrite Hu in Hch by lia; done
       end.
Qed.

Lemma tutorial_keeps_unowned : tutorial_satisfies keeps_unowned.
Proof.
  split; each_method; unfold keeps_unowned, unowned; simpl; intros Hs Hu;
    try done.
  all: intros Hz; destruct (Hu Hz) as [Ho Hp].
  all: repeat match goal with
         | H : (_ =? _) = true |- _ => apply N.eqb_eq in H
         end; congruence.
Qed.

(** ** The sum of balances *)

Lemma sum_balances_fresh (m : gmap N N) k v :
  m !! k = None → sum_balances (<[k := v]> m) = v + sum_balances m.
Proof.
  intros Hk. unfold sum_balances.
  rewrite map_fold_insert_L; [done| |done].
  intros; lia.
Qed.

Lemma sum_balances_insert (m : gmap N N) k v :
  sum_balances (<[k := v]> m) + default 0 (m !! k) = v + sum_balances m.
Proof.
  destruct (m !! k) as [x|] eqn:Hk; simpl.
  - rewrite <- (insert_delete_id m k x Hk) at 2.
    rewrite <- insert_delete_eq.
    rewrite !sum_balances_fresh by apply lookup_delete_eq. lia.
  - rewrite sum_balances_fresh by done. lia.
Qed.

Lemma sum_balances_lookup_le (m : gmap N N) k :
  default 0 (m !! k) ≤ sum_balances m.
Proof.
  destruct (m !! k) as [x|] eqn:Hk; simpl; [|lia].
  rewrite <- (insert_delete_id m k x Hk).
  rewrite sum_balances_fresh by apply lookup_delete_eq. lia.
Qed.

Lemma unchecked_add_small a b :
  a + b ≤ MAX_UINT256 → unchecked_add a b = a + b.
Proof.
  intros H. unfold unchecked_add. apply N.mod_small.
  unfold MAX_UINT256 in H. lia.
Qed.

Lemma unchecked_sub_small a b :
  b ≤ a → a ≤ MAX_UINT256 → unchecked_sub a b = a - b.
Proof.
  intros H1 H2. unfold unchecked_sub.
  replace (a + 2 ^ 256 - b) with ((a - b) + 1 * 2 ^ 256) by lia.
  rewrite N.Div0.mod_add. apply N.mod_small. unfold MAX_UINT256 in H2. lia.
Qed.

Lemma sum_balances_mint (m : gmap N N) a n :
  sum_balances m + n ≤ MAX_UINT256 →
  sum_balances (<[a := unchecked_add (default 0 (m !! a)) n]> m)
  = sum_balances m + n.
Proof.
  intros Hmax.
  pose proof (sum_balances_lookup_le m a) as Hle.
  rewrite unchecked_add_small by lia.
  pose proof (sum_balances_insert m a (default 0 (m !! a) + n)). lia.
Qed.

Lemma sum_balances_burn (m : gmap N N) a n :
  n ≤ default 0 (m !! a) →
  sum_balances (<[a := default 0 (m !! a) - n]> m) = sum_balances m - n.
Proof.
  intros Hn.
  pose proof (sum_balances_lookup_le m a) as Hle.
  pose proof (sum_balances_insert m a (default 0 (m !! a) - n)). lia.
Qed.

Lemma sum_balances_transfer (m : gmap N N) from to n :
  sum_balances m ≤ MAX_UINT256 →
  n ≤ default 0 (m !! from) →
  let m1 := <[from := default 0 (m !! from) - n]> m in
  sum_balances (<[to := unchecked_add (default 0 (m1 !! to)) n]> m1)
  = sum_balances m.
Proof.
  intros Hmax Hn m1.
  pose proof (sum_balances_lookup_le m from) as Hle.
  assert (sum_balances m1 = sum_balances m - n) as H1
    by (by apply sum_balances_burn).
  rewrite sum_balances_mint by lia. lia.
Qed.

Lemma tutorial_keeps_supply : tutorial_satisfies keeps_supply.
Proof.
  split; each_method; unfold keeps_supply; try done.
  all: unfold supply_ok, balance_at in *; simpl in *; intros [Hsum Hmax].
  all: repeat match goal with
         | H : (_ <=? _) = true |- _ => apply N.leb_le in H
         end.
  all: try (rewrite sum_balances_transfer by lia; done).
  all: try (rewrite sum_balances_mint by lia; lia).
  all: match goal with
       | H : ?n ≤ default 0 (?m !! ?a) |- _ =>
           pose proof (sum_balances_lookup_le m a);
           rewrite sum_balances_burn, unchecked_sub_small by lia; lia
       end.
Qed.

(** ** From functions to calls *)

(** Under the tutorial's registry, a call leaves the storage alone or
    changes it the way one public function of V1 or V2 does. *)
Lemma transition_storage (R : method_spec) s c s' :
  tutorial_satisfies R →
  transition tutorial_registry s c s' →
  storage s' = storage s ∨
  ∃ sel args v,
    invokes c sel args ∧
    R sel (caller_identity (call_env c)) args (storage s) v (storage s').
Proof.
  intros HR Htr. destruct Htr; simpl; auto; right.
  - exists (call_selector c), (call_args c), v. split.
    + destruct c; constructor.
    + eapply tutorial_satisfies_lookup; eauto.
  - exists sel, args, v. split; [done|].
    eapply tutorial_satisfies_lookup; eauto.
Qed.

Lemma step_storage (R : method_spec) s c :
  tutorial_satisfies R →
  storage (step tutorial_registry s c) = storage s ∨
  ∃ sel args v,
    invokes c sel args ∧
    R sel (caller_identity (call_env c)) args (storage s) v
      (storage (step tutorial_registry s c)).
Proof. intros HR. eapply transition_storage, step_transition. done. Qed.

Lemma step_active s c :
  (∃ id impl, active_implementation s = Some id ∧
              resolve tutorial_registry id = Some impl) →
  ∃ id impl, active_implementation (step tutorial_registry s c) = Some id ∧
             resolve tutorial_registry id = Some impl.
Proof.
  intros Hs. destruct (step_transition tutorial_registry s c); simpl; eauto.
Qed.

Lemma step_guard_closed s c :
  guard_closed (storage s) →
  guard_closed (storage (step tutorial_registry s c)).
Proof.
  intros [Hi Hv].
  destruct (step_storage guard_steps s c tutorial_guard_steps)
    as [->|(sel & args & v & _ & H)]; [done|].
  destruct (H Hi) as [Hi' Hv']. split; [done|]. lia.
Qed.

Lemma step_initialized s c :
  guard_closed (storage s) →
  _initialized (storage s) ≠ 0 →
  _initialized (storage (step tutorial_registry s c)) ≠ 0.
Proof.
  intros [Hi Hv] Hnz.
  destruct (step_storage guard_steps s c tutorial_guard_steps)
    as [->|(sel & args & v & _ & H)]; [done|].
  destruct (H Hi) as [_ Hv']. lia.
Qed.

Lemma step_invariant s c :
  caller_identity (call_env c) ≠ 0 →
  invariant s → invariant (step tutorial_registry s c).
Proof.
  intros Hc [Ha Hg Hu Hs]. split.
  - by apply step_active.
  - by apply step_guard_closed.
  - destruct (step_storage keeps_unowned s c tutorial_keeps_unowned)
      as [->|(sel & args & v & _ & H)]; [done|]. by apply H.
  - destruct (step_storage keeps_supply s c tutorial_keeps_supply)
      as [->|(sel & args & v & _ & H)]; [done|]. by apply H.
Qed.

Lemma reachable_invariant s : reachable s → invariant s.
Proof.
  induction 1 as [initial admin [impl Himpl]|s c _ IH Hc].
  - split; simpl.
    + eauto.
    + split; simpl; [done|lia].
    + by intros _.
    + split; simpl; [done|]. unfold MAX_UINT256. lia.
  - by apply step_invariant.
Qed.

Lemma run_guard_closed s cs :
  guard_closed (storage s) →
  guard_closed (storage (run tutorial_registry s cs)).
Proof.
  revert s. induction cs as [|c cs IH]; simpl; intros s Hg; [done|].
  by apply IH, step_guard_closed.
Qed.

Lemma run_initialized s cs :
  guard_closed (storage s) →
  _initialized (storage s) ≠ 0 →
  _initialized (storage (run tutorial_registry s cs)) ≠ 0.
Proof.
  revert s. induction cs as [|c cs IH]; simpl; intros s Hg Hnz; [done|].
  apply IH; [by apply step_guard_closed|by apply step_initialized].
Qed.

Lemma run_active s cs :
  (∃ id impl, active_implementation s = Some id ∧
              resolve tutorial_registry id = Some impl) →
  ∃ id impl,
    active_implementation (run tutorial_registry s cs) = Some id ∧
    resolve tutorial_registry id = Some impl.
Proof.
  revert s. induction cs as [|c cs IH]; simpl; intros s Hs; [done|].
  by apply IH, step_active.
Qed.

(** ** The tutorial's console session, evaluated *)

Example registry_ids :
  snd (register V1.impl []) = ID_V1 ∧
  snd (register V2.impl (fst (register V1.impl []))) = ID_V2 ∧
  (impl_version <$> resolve tutorial_registry ID_V2)
  = Some "ERC20UpgradableV2".
Proof. by vm_compute. Qed.

Example deployed_then_initialized :
  _initialized (storage demo_deployed) = 0 ∧
  _initialized (storage demo_initialized) = 1 ∧
  _initializing (storage demo_initialized) = false ∧
  _name (storage demo_initialized) = "ERC20Upgradable" ∧
  _symbol (storage demo_initialized) = "EUC" ∧
  _owner (storage demo_initialized) = 9 ∧
  _paused (storage demo_initialized) = false.
Proof. by vm_compute. Qed.

Example minted_hundred :
  balance_at (storage demo_minted) 5 = 100 ∧
  _totalSupply (storage demo_minted) = 100 ∧
  snd (exec tutorial_registry (mkEnv 6 1002) "balanceOf" [VAddr 5] demo_minted)
  = Success (VUint 100).
Proof. by vm_compute. Qed.

Example transfer_moves_tokens :
  balance_at
    (storage (step tutorial_registry demo_minted
                (mkCall (mkEnv 5 1002) "transfer" [VAddr 6; VUint 30]))) 5
  = 70 ∧
  balance_at
    (storage (step tutorial_registry demo_minted
                (mkCall (mkEnv 5 1002) "transfer" [VAddr 6; VUint 30]))) 6
  = 30 ∧
  snd (exec tutorial_registry (mkEnv 6 1002) "transfer" [VAddr 5; VUint 1]
         demo_minted)
  = Failure (Revert "ERC20: transfer amount exceeds balance").
Proof. by vm_compute. Qed.

Example burn_reduces_supply :
  _totalSupply
    (storage (step tutorial_registry demo_minted
                (mkCall (mkEnv 5 1002) "burn" [VUint 40]))) = 60.
Proof. by vm_compute. Qed.

Example pause_is_for_the_owner :
  snd (exec tutorial_registry (mkEnv 5 1002) "pause" [] demo_minted)
  = Failure (Revert "Ownable: caller is not the owner") ∧
  _paused (storage demo_paused) = true ∧
  snd (exec tutorial_registry (mkEnv 5 1003) "transfer" [VAddr 6; VUint 30]
         demo_paused)
  = Failure (Revert "Pausable: paused").
Proof. by vm_compute. Qed.

Example upgrade_session :
  snd (exec tutorial_registry (mkEnv 5 1002) "verifyUser" [VAddr 5]
         demo_minted) = Failure NoSuchSelector ∧
  exec tutorial_registry (mkEnv 5 1002) "upgrade" [VUint 1] demo_minted
  = (demo_minted, Failure Unauthorized) ∧
  exec tutorial_registry (mkEnv 7 1002) "upgrade" [VUint 2] demo_minted
  = (demo_minted, Failure UnknownImplementation) ∧
  exec tutorial_registry (mkEnv 7 1002) "upgrade"
    [VUint 1; VStr "addUser"; VAddr 5] demo_minted
  = (demo_minted, Failure MigrationFailure) ∧
  active_implementation demo_upgraded = Some ID_V2 ∧
  upgrade_log demo_upgraded = [mkUpgradeRecord 1002 (Some ID_V1) ID_V2 7] ∧
  balance_at (storage demo_upgraded) 5 = 100 ∧
  snd (exec tutorial_registry (mkEnv 5 1003) "verifyUser" [VAddr 5]
         demo_upgraded) = Success (VBool false) ∧
  snd (exec tutorial_registry (mkEnv 5 1003) "mint" [VAddr 5; VUint 100]
         demo_upgraded) = Failure (Revert EmptyString) ∧
  snd (exec tutorial_registry (mkEnv 5 1003) "addUser" [VAddr 5]
         demo_upgraded)
  = Failure (Revert "Ownable: caller is not the owner") ∧
  snd (exec tutorial_registry (mkEnv 5 1004) "verifyUser" [VAddr 5]
         demo_whitelisted) = Success (VBool true) ∧
  balance_at
    (storage (step tutorial_registry demo_whitelisted
                (mkCall (mkEnv 5 1004) "mint" [VAddr 5; VUint 100]))) 5
  = 200.
Proof. by vm_compute. Qed.

(** ** The initializer guard (claim C1) *)

Lemma handle_tutorial_business env sel args s id impl :
  is_management sel = false →
  active_implementation s = Some id →
  resolve tutorial_registry id = Some impl →
  handle tutorial_registry env sel args s = forward impl env sel args s.
Proof.
  intros Hsel Hid Himpl. unfold handle, active_code.
  by rewrite Hsel, Hid, Himpl.
Qed.

Lemma forward_initialize_fresh impl env args s :
  impl = V1.impl ∨ impl = V2.impl →
  _initializing (storage s) = false →
  _initialized (storage s) = 0 →
  forward impl env "initialize" args s
  = Ok (VUnit,
        set_storage (initialized_storage (caller_identity env) (storage s)) s).
Proof.
  intros [->| ->] Hi Hv; unfold forward; simpl; unfold_contract; simpl.
  all: by rewrite Hi, Hv.
Qed.

Lemma forward_initialize_again impl env args s :
  impl = V1.impl ∨ impl = V2.impl →
  _initialized (storage s) ≠ 0 →
  forward impl env "initialize" args s = Err AlreadyInitialized.
Proof.
  intros [->| ->] Hv; unfold forward; simpl; unfold_contract; simpl.
  all: destruct (N.ltb_spec (_initialized (storage s)) 1); [lia|].
  all: by rewrite andb_false_r.
Qed.

Lemma resolve_tutorial_impl id impl :
  resolve tutorial_registry id = Some impl →
  impl = V1.impl ∨ impl = V2.impl.
Proof. intros [[_ ->]|[_ ->]]%resolve_tutorial; auto. Qed.

(** C1.  On every reachable Instance and for every caller: [initialize]
    succeeds while the Instance has not been initialized, and once it has
    succeeded every later [initialize] call, after any calls by anyone,
    fails with [AlreadyInitialized] and leaves the Instance exactly as it
    was; on an Instance that is already initialized it fails the same way.
    So at most one [initialize] call ever succeeds. *)
Theorem initialize_at_most_once (s : Instance) (env : Env) (args : list val) :
  reachable s →
  (_initialized (storage s) = 0 →
   ∃ s1,
     exec tutorial_registry env "initialize" args s = (s1, Success VUnit) ∧
     ∀ (cs : list call) (env' : Env) (args' : list val),
       exec tutorial_registry env' "initialize" args'
         (run tutorial_registry s1 cs)
       = (run tutorial_registry s1 cs, Failure AlreadyInitialized)) ∧
  (_initialized (storage s) ≠ 0 →
   exec tutorial_registry env "initialize" args s
   = (s, Failure AlreadyInitialized)).
Proof.
  intros Hreach. destruct (reachable_invariant s Hreach) as [Ha Hg _ _].
  destruct Ha as (id & impl & Hid & Himpl).
  pose proof (resolve_tutorial_impl _ _ Himpl) as Hcode.
  split.
  - intros Hv. destruct Hg as [Hi _].
    eexists. split.
    + unfold exec.
      rewrite (handle_tutorial_business _ _ _ _ id impl) by done.
      by rewrite forward_initialize_fresh.
    + intros cs env' args'.
      set (s1 := set_storage _ s).
      assert (guard_closed (storage s1)) as Hg1 by (split; simpl; [done|lia]).
      assert (_initialized (storage s1) ≠ 0) as Hnz1 by (simpl; lia).
      pose proof (run_initialized s1 cs Hg1 Hnz1) as Hnz.
      destruct (run_active s1 cs) as (id' & impl' & Hid' & Himpl');
        [by exists id, impl|].
      unfold exec.
      rewrite (handle_tutorial_business _ _ _ _ id' impl') by done.
      rewrite forward_initialize_again;
        [done|by eapply resolve_tutorial_impl|done].
  - intros Hnz. unfold exec.
    rewrite (handle_tutorial_business _ _ _ _ id impl) by done.
    by rewrite forward_initialize_again.
Qed.

Lemma demo_initialized_reachable : reachable demo_initialized.
Proof. apply reachable_step; [apply reachable_deploy; by eexists|done]. Qed.

Lemma demo_minted_reachable : reachable demo_minted.
Proof. apply reachable_step; [apply demo_initialized_reachable|done]. Qed.

Lemma initialize_at_most_once_witness :
  reachable demo_initialized ∧
  exec tutorial_registry (mkEnv 5 1001) "initialize" [] demo_initialized
  = (demo_initialized, Failure AlreadyInitialized).
Proof.
  split; [exact demo_initialized_reachable|].
  apply (proj2 (initialize_at_most_once demo_initialized (mkEnv 5 1001) []
                  demo_initialized_reachable)).
  vm_compute. discriminate.
Defined.

(** ** Authorization of the management operations (claim C2) *)

Lemma tutorial_no_clash s impl sel :
  active_code tutorial_registry s = Some impl →
  is_management sel = true →
  defines impl sel = false.
Proof.
  unfold active_code. destruct (active_implementation s) as [id|]; [|done].
  intros [->| ->]%resolve_tutorial_impl Hsel; unfold is_management in Hsel.
  all: destruct (String.eqb_spec sel "upgrade") as [->|_]; [done|].
  all: destruct (String.eqb_spec sel "transferAdmin") as [->|_]; done.
Qed.

Lemma upgrade_by_admin reg env id impl s :
  caller_identity env = admin_identity s →
  resolve reg id = Some impl →
  handle reg env "upgrade" [VUint (N.of_nat id)] s
  = Ok (VUnit,
        append_record
          (mkUpgradeRecord (timestamp env) (active_implementation s) id
             (caller_identity env))
          (set_active id s)).
Proof.
  intros Hadm Hres. unfold handle, manage, upgrade; simpl.
  rewrite Hadm, N.eqb_refl. simpl. by rewrite Nat2N.id, Hres.
Qed.

(** C2.  On an Instance of the tutorial, for every caller: an [upgrade] or
    [transferAdmin] call that succeeds was made by the stored admin
    identity, and a call by anyone else fails with [Unauthorized] and leaves
    the Instance exactly as it was. *)
Theorem management_admin_only (s : Instance) (env : Env) (sel : string)
    (args : list val) :
  sel = "upgrade" ∨ sel = "transferAdmin" →
  (∀ v s', handle tutorial_registry env sel args s = Ok (v, s') →
           caller_identity env = admin_identity s) ∧
  (caller_identity env ≠ admin_identity s →
   exec tutorial_registry env sel args s = (s, Failure Unauthorized)).
Proof.
  intros Hsel.
  assert (is_management sel = true) as Hm by (by destruct Hsel as [->| ->]).
  assert (caller_identity env ≠ admin_identity s →
          handle tutorial_registry env sel args s = Err Unauthorized) as Hna.
  { intros Hne%N.eqb_neq. unfold handle. rewrite Hm, Hne.
    destruct (active_code tutorial_registry s) as [impl|] eqn:Hcode; [|done].
    by rewrite (tutorial_no_clash s impl sel). }
  split.
  - intros v s' Hok.
    destruct (decide (caller_identity env = admin_identity s)) as [|Hne];
      [done|].
    rewrite (Hna Hne) in Hok. discriminate.
  - intros Hne. unfold exec. by rewrite (Hna Hne).
Qed.

Lemma management_admin_only_witness :
  ("upgrade" = "upgrade" ∨ "upgrade" = "transferAdmin") ∧
  exec tutorial_registry (mkEnv 5 1002) "upgrade" [VUint 1] demo_minted
  = (demo_minted, Failure Unauthorized).
Proof.
  split; [by left|].
  apply (proj2 (management_admin_only demo_minted (mkEnv 5 1002)
                  "upgrade" [VUint 1] (or_introl eq_refl))).
  vm_compute. discriminate.
Defined.

(** ** Routing (claim C7) *)

Lemma handle_management_admin reg env sel args s :
  is_management sel = true →
  caller_identity env = admin_identity s →
  handle reg env sel args s = manage reg env sel args s.
Proof. intros Hm Hadm. unfold handle. by rewrite Hm, Hadm, N.eqb_refl. Qed.

Lemma handle_management_other reg env sel args s :
  is_management sel = true →
  caller_identity env ≠ admin_identity s →
  handle reg env sel args s
  = match active_code reg s with
    | Some impl =>
        if defines impl sel then forward impl env sel args s
        else Err Unauthorized
    | None => Err Unauthorized
    end.
Proof. intros Hm Hne%N.eqb_neq. unfold handle. by rewrite Hm, Hne. Qed.

(** C7.  For every registry, whatever the active implementation declares,
    and every call whose selector is a reserved management operation.
    From the admin the call is the management operation and no function of
    the active implementation runs: [transferAdmin(a)] only replaces the
    admin, [upgrade(B)] only switches the active implementation and logs
    it, [upgrade(B, call)] does the same around the migration call run on
    [B], and without a migration call the business storage is untouched.
    From anyone else the call runs the function the active implementation
    declares under that selector, against the Instance's storage, with that
    function's result or failure; it fails with [Unauthorized] when the
    implementation declares none (or none is active); and it never changes
    the active implementation, the admin or the upgrade log. *)
Theorem dispatcher_caller_first (reg : registry) (env : Env) (sel : string)
    (args : list val) (s : Instance) :
  is_management sel = true →
  (caller_identity env = admin_identity s →
   (∀ a rest,
      sel = "transferAdmin" → args = VAddr a :: rest →
      handle reg env sel args s = Ok (VUnit, set_admin a s)) ∧
   (∀ B implB,
      sel = "upgrade" → args = [VUint (N.of_nat B)] →
      resolve reg B = Some implB →
      handle reg env sel args s
      = Ok (VUnit,
            append_record
              (mkUpgradeRecord (timestamp env) (active_implementation s) B
                 (caller_identity env))
              (set_active B s))) ∧
   (∀ B implB msel margs m,
      sel = "upgrade" → args = VUint (N.of_nat B) :: VStr msel :: margs →
      resolve reg B = Some implB →
      lookup_method msel (impl_methods implB) = Some m →
      handle reg env sel args s
      = match m (caller_identity env) margs (storage s) with
        | Ok (_, st') =>
            Ok (VUnit,
                append_record
                  (mkUpgradeRecord (timestamp env) (active_implementation s)
                     B (caller_identity env))
                  (set_storage st' (set_active B s)))
        | Err _ => Err MigrationFailure
        end) ∧
   (∀ v s',
      handle reg env sel args s = Ok (v, s') →
      (∀ id msel margs, args ≠ VUint id :: VStr msel :: margs) →
      storage s' = storage s)) ∧
  (caller_identity env ≠ admin_identity s →
   (∀ id impl m,
      active_implementation s = Some id →
      resolve reg id = Some impl →
      lookup_method sel (impl_methods impl) = Some m →
      handle reg env sel args s
      = match m (caller_identity env) args (storage s) with
        | Ok (v, st') => Ok (v, set_storage st' s)
        | Err e => Err e
        end) ∧
   (∀ id impl,
      active_implementation s = Some id →
      resolve reg id = Some impl →
      lookup_method sel (impl_methods impl) = None →
      handle reg env sel args s = Err Unauthorized) ∧
   (active_implementation s = None ∨
    (∃ id, active_implementation s = Some id ∧ resolve reg id = None) →
    handle reg env sel args s = Err Unauthorized) ∧
   (∀ v s',
      handle reg env sel args s = Ok (v, s') →
      active_implementation s' = active_implementation s ∧
      admin_identity s' = admin_identity s ∧
      upgrade_log s' = upgrade_log s)).
Proof.
  intros Hm. split.
  - intros Hadm. rewrite (handle_management_admin _ _ _ _ _ Hm Hadm).
    split; [|split; [|split]].
    + intros a rest -> ->. unfold manage, transferAdmin; simpl.
      by rewrite Hadm, N.eqb_refl.
    + intros B implB -> -> HB. unfold manage, upgrade; simpl.
      by rewrite Hadm, N.eqb_refl, Nat2N.id, HB.
    + intros B implB msel margs m -> -> HB Hlook.
      unfold manage, upgrade, forward; simpl.
      rewrite Hadm, N.eqb_refl, Nat2N.id, HB, Hlook; simpl.
      by destruct (m _ _ _) as [[v st']|e].
    + intros v s' Hok Hnomig.
      unfold manage, upgrade, transferAdmin in Hok.
      rewrite Hadm, N.eqb_refl in Hok; simpl in Hok.
      destruct (String.eqb sel "upgrade").
      * destruct args as [|[| |n| |] [|[| | | |msel] margs]]; try done.
        -- destruct (resolve reg (N.to_nat n)); by simplify_eq.
        -- by destruct (Hnomig n msel margs).
      * destruct args as [|[| | |a|] rest]; try done. by simplify_eq.
  - intros Hne. rewrite (handle_management_other _ _ _ _ _ Hm Hne).
    unfold active_code, defines, forward.
    split; [|split; [|split]].
    + intros id impl m -> -> ->. done.
    + intros id impl -> -> ->. done.
    + intros [->|(id & -> & ->)]; done.
    + intros v s' Hok.
      destruct (active_implementation s) as [id|] eqn:Hid; [|done].
      destruct (resolve reg id) as [impl|]; [|done].
      destruct (lookup_method sel (impl_methods impl)) as [m|]; [|done].
      destruct (m _ _ _) as [[v' st']|e]; [|done].
      simplify_eq. by rewrite <- Hid.
Qed.

Lemma demo_clash_ran :
  _owner (storage demo_clash) = 9 ∧
  ∃ m, lookup_method "transferAdmin" (impl_methods clash_impl) = Some m ∧
       m 5 [VAddr 5] (storage demo_clash)
       = Ok (VUnit, set_owner 5 (storage demo_clash)).
Proof. split; [by vm_compute|]. eexists. split; [reflexivity|by vm_compute]. Qed.

Lemma dispatcher_caller_first_witness :
  is_management "transferAdmin" = true ∧
  handle clash_registry (mkEnv 7 1001) "transferAdmin" [VAddr 5] demo_clash
  = Ok (VUnit, set_admin 5 demo_clash) ∧
  handle clash_registry (mkEnv 5 1001) "transferAdmin" [VAddr 5] demo_clash
  = Ok (VUnit, set_storage (set_owner 5 (storage demo_clash)) demo_clash).
Proof.
  assert (caller_identity (mkEnv 7 1001) = admin_identity demo_clash) as Hadm
    by (by vm_compute).
  assert (caller_identity (mkEnv 5 1001) ≠ admin_identity demo_clash) as Hne
    by (by vm_compute).
  assert (active_implementation demo_clash = Some 0%nat) as Hact
    by (by vm_compute).
  destruct demo_clash_ran as (_ & m & Hm & Hrun).
  split; [reflexivity|]. split.
  - exact (proj1 (proj1 (dispatcher_caller_first clash_registry
                           (mkEnv 7 1001) "transferAdmin" [VAddr 5]
                           demo_clash eq_refl) Hadm)
             5 [] eq_refl eq_refl).
  - rewrite (proj1 (proj2 (dispatcher_caller_first clash_registry
                             (mkEnv 5 1001) "transferAdmin" [VAddr 5]
                             demo_clash eq_refl) Hne)
               0%nat clash_impl m Hact eq_refl Hm).
    change (caller_identity (mkEnv 5 1001)) with 5. by rewrite Hrun.
Defined.

(** ** Upgrades keep the fields (claim C3) *)






(** ** Single calls, evaluated *)

Ltac run_method := unfold forward; simpl; unfold_contract; simpl.

Lemma is_address_true a : a ≤ MAX_ADDRESS → is_address a = true.
Proof. intros H. by apply N.leb_le. Qed.

Lemma is_uint256_true n : n ≤ MAX_UINT256 → is_uint256 n = true.
Proof. intros H. by apply N.leb_le. Qed.

Lemma uint256_of_sum a b : a + b ≤ MAX_UINT256 → is_uint256 b = true.
Proof. intros H. apply N.leb_le. lia. Qed.

Lemma handle_mint_V1 s env to amount :
  active_implementation s = Some ID_V1 →
  _paused (storage s) = false →
  to ≠ 0 → to ≤ MAX_ADDRESS →
  _totalSupply (storage s) + amount ≤ MAX_UINT256 →
  handle tutorial_registry env "mint" [VAddr to; VUint amount] s
  = Ok (VUnit, set_storage (minted to amount (storage s)) s).
Proof.
  intros Hact Hp Hz Ha Hsum.
  rewrite (handle_tutorial_business _ _ _ _ ID_V1 V1.impl) by done.
  run_method.
  rewrite (is_address_true _ Ha), (uint256_of_sum _ _ Hsum); simpl.
  rewrite (proj2 (N.eqb_neq _ _) Hz); simpl. rewrite Hp; simpl.
  by rewrite (proj2 (N.leb_le _ _) Hsum).
Qed.

Lemma handle_mint_V2 s env to amount :
  active_implementation s = Some ID_V2 →
  whitelisted_at (storage s) to = true →
  _paused (storage s) = false →
  to ≠ 0 → to ≤ MAX_ADDRESS →
  _totalSupply (storage s) + amount ≤ MAX_UINT256 →
  handle tutorial_registry env "mint" [VAddr to; VUint amount] s
  = Ok (VUnit, set_storage (minted to amount (storage s)) s).
Proof.
  intros Hact Hw Hp Hz Ha Hsum.
  rewrite (handle_tutorial_business _ _ _ _ ID_V2 V2.impl) by done.
  run_method.
  rewrite (is_address_true _ Ha), (uint256_of_sum _ _ Hsum); simpl.
  rewrite Hw; simpl.
  rewrite (proj2 (N.eqb_neq _ _) Hz); simpl. rewrite Hp; simpl.
  by rewrite (proj2 (N.leb_le _ _) Hsum).
Qed.

Lemma handle_mint_V2_not_whitelisted s env to amount :
  active_implementation s = Some ID_V2 →
  whitelisted_at (storage s) to = false →
  to ≤ MAX_ADDRESS → amount ≤ MAX_UINT256 →
  handle tutorial_registry env "mint" [VAddr to; VUint amount] s
  = Err (Revert EmptyString).
Proof.
  intros Hact Hw Ha Hn.
  rewrite (handle_tutorial_business _ _ _ _ ID_V2 V2.impl) by done.
  run_method.
  rewrite (is_address_true _ Ha), (is_uint256_true _ Hn); simpl.
  by rewrite Hw.
Qed.

Lemma handle_addUser s env a :
  active_implementation s = Some ID_V2 →
  caller_identity env = _owner (storage s) →
  a ≤ MAX_ADDRESS →
  handle tutorial_registry env "addUser" [VAddr a] s
  = Ok (VUnit, set_storage (whitelisted a (storage s)) s).
Proof.
  intros Hact Ho Ha.
  rewrite (handle_tutorial_business _ _ _ _ ID_V2 V2.impl) by done.
  run_method.
  rewrite (is_address_true _ Ha); simpl.
  by rewrite <- Ho, N.eqb_refl.
Qed.

Lemma set_storage_id s : set_storage (storage s) s = s.
Proof. by destruct s. Qed.

Lemma handle_verifyUser s env a rest :
  active_implementation s = Some ID_V2 →
  a ≤ MAX_ADDRESS →
  handle tutorial_registry env "verifyUser" (VAddr a :: rest) s
  = Ok (VBool (whitelisted_at (storage s) a), s).
Proof.
  intros Hact Ha.
  rewrite (handle_tutorial_business _ _ _ _ ID_V2 V2.impl) by done.
  run_method.
  rewrite (is_address_true _ Ha); simpl.
  by rewrite set_storage_id.
Qed.

Lemma balance_at_minted to amount st :
  balance_at (minted to amount st) to
  = unchecked_add (balance_at st to) amount.
Proof. unfold minted, balance_at; simpl. by rewrite lookup_insert_eq. Qed.

Lemma balance_at_minted_ne to amount st a :
  a ≠ to → balance_at (minted to amount st) a = balance_at st a.
Proof.
  intros Hne. unfold minted, balance_at; simpl. by rewrite lookup_insert_ne.
Qed.

Lemma step_Ok reg s c v s' :
  handle reg (call_env c) (call_selector c) (call_args c) s = Ok (v, s') →
  step reg s c = s'.
Proof. intros H. unfold step, exec. by rewrite H. Qed.

Lemma exec_Ok reg env sel args s v s' :
  handle reg env sel args s = Ok (v, s') →
  exec reg env sel args s = (s', Success v).
Proof. intros H. unfold exec. by rewrite H. Qed.

Lemma exec_Err reg env sel args s e :
  handle reg env sel args s = Err e →
  exec reg env sel args s = (s, Failure e).
Proof. intros H. unfold exec. by rewrite H. Qed.

(** ** Minting under V1 (claim C5) *)

(** C5, as amended.  Under V1 [mint] checks nothing about the caller: for
    every caller, on every reachable unpaused Instance, for every non-zero
    address [to] and every [amount] that keeps the total supply within
    [uint256], the call succeeds and increases the balance of [to] by
    exactly [amount]. *)
Theorem V1_mint_unrestricted (s : Instance) (env : Env) (to : address)
    (amount : N) :
  reachable s →
  active_implementation s = Some ID_V1 →
  _paused (storage s) = false →
  to ≠ 0 → to ≤ MAX_ADDRESS →
  _totalSupply (storage s) + amount ≤ MAX_UINT256 →
  ∃ s',
    exec tutorial_registry env "mint" [VAddr to; VUint amount] s
    = (s', Success VUnit) ∧
    balance_at (storage s') to = balance_at (storage s) to + amount.
Proof.
  intros Hreach Hact Hp Hz Ha Hsum.
  destruct (reachable_invariant s Hreach) as [_ _ _ [Hbal Hmax]].
  eexists. split.
  - apply exec_Ok. by apply handle_mint_V1.
  - simpl. rewrite balance_at_minted. apply unchecked_add_small.
    pose proof (sum_balances_lookup_le (_balances (storage s)) to).
    unfold balance_at. lia.
Qed.

Lemma V1_mint_unrestricted_witness :
  (reachable demo_initialized ∧
   active_implementation demo_initialized = Some ID_V1 ∧
   _paused (storage demo_initialized) = false ∧
   5 ≠ 0 ∧ 5 ≤ MAX_ADDRESS ∧
   _totalSupply (storage demo_initialized) + 100 ≤ MAX_UINT256) ∧
  ∃ s',
    exec tutorial_registry (mkEnv 5 1001) "mint" [VAddr 5; VUint 100]
      demo_initialized
    = (s', Success VUnit) ∧
    balance_at (storage s') 5 = balance_at (storage demo_initialized) 5 + 100.
Proof.
  assert (5 ≠ 0) as Hz by discriminate.
  assert (5 ≤ MAX_ADDRESS) as Ha by (vm_compute; discriminate).
  assert (_totalSupply (storage demo_initialized) + 100 ≤ MAX_UINT256)
    as Hsum by (vm_compute; discriminate).
  split.
  - repeat split; try done. apply demo_initialized_reachable.
  - exact (V1_mint_unrestricted demo_initialized (mkEnv 5 1001) 5 100
             demo_initialized_reachable eq_refl eq_refl Hz Ha Hsum).
Defined.

(** C5 as stated fails: on an initialized, unpaused V1 Instance, minting to
    the zero address is rejected, and so is a mint that would take the total
    supply past [uint256]. *)
Lemma V1_mint_rejected :
  reachable demo_initialized ∧ reachable demo_minted ∧
  active_implementation demo_initialized = Some ID_V1 ∧
  _initialized (storage demo_initialized) = 1 ∧
  _paused (storage demo_initialized) = false ∧
  exec tutorial_registry (mkEnv 5 1001) "mint" [VAddr 0; VUint 100]
    demo_initialized
  = (demo_initialized, Failure (Revert "ERC20: mint to the zero address")) ∧
  active_implementation demo_minted = Some ID_V1 ∧
  _initialized (storage demo_minted) = 1 ∧
  _paused (storage demo_minted) = false ∧
  exec tutorial_registry (mkEnv 5 1002) "mint" [VAddr 5; VUint MAX_UINT256]
    demo_minted
  = (demo_minted, Failure Panic).
Proof.
  split; [apply demo_initialized_reachable|].
  split; [apply demo_minted_reachable|].
  repeat split; by vm_compute.
Qed.

(** ** The whitelist scenario (claim C4) *)

Lemma handle_initialize_deployed env args initial admin impl :
  resolve tutorial_registry initial = Some impl →
  handle tutorial_registry env "initialize" args (deploy initial admin)
  = Ok (VUnit,
        set_storage (initialized_storage (caller_identity env) empty_storage)
          (deploy initial admin)).
Proof.
  intros Himpl.
  rewrite (handle_tutorial_business _ _ _ _ initial impl) by done.
  rewrite forward_initialize_fresh; [done| |done|done].
  by eapply resolve_tutorial_impl.
Qed.

(** C4.  For every admin, deployer and callers, and every non-zero address
    [addr]: deploy on V1, [initialize], [mint(addr, 100)] (the balance of
    [addr] is then 100), [upgrade(V2)] by the admin.  Then [mint(addr, 50)]
    fails and changes nothing; [addUser(addr)] by the owner succeeds;
    [verifyUser(addr)] returns true; and [mint(addr, 50)] succeeds and
    leaves [addr] with 150. *)
Theorem whitelist_scenario (admin addr : address)
    (e_init e_mint e_up e_try e_add e_ver e_mint2 : Env) :
  addr ≠ 0 → addr ≤ MAX_ADDRESS →
  caller_identity e_up = admin →
  caller_identity e_add = caller_identity e_init →
  let s1 := step tutorial_registry (deploy ID_V1 admin)
              (mkCall e_init "initialize" []) in
  let s2 := step tutorial_registry s1
              (mkCall e_mint "mint" [VAddr addr; VUint 100]) in
  let s3 := step tutorial_registry s2 (mkCall e_up "upgrade" [VUint 1]) in
  let s4 := step tutorial_registry s3 (mkCall e_add "addUser" [VAddr addr]) in
  let s5 := step tutorial_registry s4
              (mkCall e_mint2 "mint" [VAddr addr; VUint 50]) in
  active_implementation s2 = Some ID_V1 ∧
  balance_at (storage s2) addr = 100 ∧
  exec tutorial_registry e_up "upgrade" [VUint 1] s2 = (s3, Success VUnit) ∧
  active_implementation s3 = Some ID_V2 ∧
  exec tutorial_registry e_try "mint" [VAddr addr; VUint 50] s3
  = (s3, Failure (Revert EmptyString)) ∧
  exec tutorial_registry e_add "addUser" [VAddr addr] s3
  = (s4, Success VUnit) ∧
  exec tutorial_registry e_ver "verifyUser" [VAddr addr] s4
  = (s4, Success (VBool true)) ∧
  exec tutorial_registry e_mint2 "mint" [VAddr addr; VUint 50] s4
  = (s5, Success VUnit) ∧
  balance_at (storage s5) addr = 150.
Proof.
  intros Hz Ha Hadm Hown s1 s2 s3 s4 s5.
  assert (handle tutorial_registry e_init "initialize" [] (deploy ID_V1 admin)
          = Ok (VUnit, s1)) as H1.
  { subst s1. erewrite (step_Ok _ _ (mkCall _ _ _));
      by apply (handle_initialize_deployed _ _ _ _ V1.impl). }
  assert (s1 = set_storage
                 (initialized_storage (caller_identity e_init) empty_storage)
                 (deploy ID_V1 admin)) as E1.
  { rewrite (handle_initialize_deployed _ _ _ _ V1.impl) in H1 by done.
    by simplify_eq. }
  clearbody s1.
  assert (handle tutorial_registry e_mint "mint" [VAddr addr; VUint 100] s1
          = Ok (VUnit, set_storage (minted addr 100 (storage s1)) s1)) as H2.
  { apply handle_mint_V1; rewrite ?E1; simpl; try done;
      unfold MAX_UINT256; lia. }
  assert (s2 = set_storage (minted addr 100 (storage s1)) s1) as E2.
  { exact (step_Ok _ _ (mkCall _ _ _) _ _ H2). }
  clearbody s2.
  assert (balance_at (storage s2) addr = 100) as B2.
  { rewrite E2; simpl. rewrite balance_at_minted, E1. reflexivity. }
  assert (handle tutorial_registry e_up "upgrade" [VUint 1] s2
          = Ok (VUnit,
                append_record
                  (mkUpgradeRecord (timestamp e_up) (active_implementation s2)
                     ID_V2 (caller_identity e_up))
                  (set_active ID_V2 s2))) as H3.
  { apply (upgrade_by_admin tutorial_registry e_up ID_V2 V2.impl);
      [by rewrite E2, E1|done]. }
  assert (s3 = append_record
                 (mkUpgradeRecord (timestamp e_up) (active_implementation s2)
                    ID_V2 (caller_identity e_up))
                 (set_active ID_V2 s2)) as E3.
  { exact (step_Ok _ _ (mkCall _ _ _) _ _ H3). }
  clearbody s3.
  assert (storage s3 = storage s2) as S3 by (by rewrite E3).
  assert (active_implementation s3 = Some ID_V2) as A3 by (by rewrite E3).
  assert (whitelisted_at (storage s3) addr = false) as W3.
  { rewrite S3, E2, E1. reflexivity. }
  assert (handle tutorial_registry e_add "addUser" [VAddr addr] s3
          = Ok (VUnit, set_storage (whitelisted addr (storage s3)) s3)) as H4.
  { apply handle_addUser; [done| |done].
    by rewrite S3, E2, E1. }
  assert (s4 = set_storage (whitelisted addr (storage s3)) s3) as E4.
  { exact (step_Ok _ _ (mkCall _ _ _) _ _ H4). }
  clearbody s4.
  assert (active_implementation s4 = Some ID_V2) as A4 by (by rewrite E4).
  assert (whitelisted_at (storage s4) addr = true) as W4.
  { rewrite E4; simpl. unfold whitelisted_at, whitelisted; simpl.
    by rewrite lookup_insert_eq. }
  assert (handle tutorial_registry e_mint2 "mint" [VAddr addr; VUint 50] s4
          = Ok (VUnit, set_storage (minted addr 50 (storage s4)) s4)) as H5.
  { apply handle_mint_V2; try done;
      rewrite E4; simpl; rewrite S3, E2, E1; simpl; try done;
      unfold MAX_UINT256; lia. }
  assert (s5 = set_storage (minted addr 50 (storage s4)) s4) as E5.
  { exact (step_Ok _ _ (mkCall _ _ _) _ _ H5). }
  clearbody s5.
  split; [by rewrite E2, E1|]. split; [done|].
  split; [by rewrite E3; apply exec_Ok|]. split; [done|].
  split.
  { apply exec_Err, handle_mint_V2_not_whitelisted; try done;
      unfold MAX_UINT256; lia. }
  split; [by rewrite E4; apply exec_Ok|].
  split.
  { apply exec_Ok. by rewrite (handle_verifyUser s4 e_ver addr [] A4 Ha), W4. }
  split; [by rewrite E5; apply exec_Ok|].
  rewrite E5; simpl. rewrite balance_at_minted.
  assert (balance_at (storage s4) addr = 100) as ->
    by (by rewrite E4; simpl; rewrite S3).
  reflexivity.
Qed.

Lemma whitelist_scenario_witness :
  (5 ≠ 0 ∧ 5 ≤ MAX_ADDRESS) ∧
  balance_at
    (storage
       (step tutorial_registry
          (step tutorial_registry demo_upgraded
             (mkCall (mkEnv 9 1003) "addUser" [VAddr 5]))
          (mkCall (mkEnv 5 1004) "mint" [VAddr 5; VUint 50]))) 5 = 150.
Proof.
  assert (5 ≠ 0) as Hz by discriminate.
  assert (5 ≤ MAX_ADDRESS) as Ha by (vm_compute; discriminate).
  split; [done|].
  apply (whitelist_scenario 7 5 (mkEnv 9 1000) (mkEnv 5 1001) (mkEnv 7 1002)
           (mkEnv 5 1003) (mkEnv 9 1003) (mkEnv 5 1003) (mkEnv 5 1004)
           Hz Ha eq_refl eq_refl).
Defined.

(** ** The whitelist (claims C6 and C10) *)

Lemma tutorial_verifyUser_pure : tutorial_satisfies verifyUser_pure.
Proof.
  split; each_method; unfold verifyUser_pure; intros; simplify_eq/=; done.
Qed.

Lemma step_whitelist_false s c a :
  whitelisted_at (storage s) a = false →
  (∀ rest, ¬ invokes c "addUser" (VAddr a :: rest)) →
  whitelisted_at (storage (step tutorial_registry s c)) a = false.
Proof.
  intros Hw Hno.
  destruct (step_storage whitelist_source s c tutorial_whitelist_source)
    as [->|(sel & args & v & Hinv & [Heq|(-> & a' & rest & -> & Heq)])];
    [done|by unfold whitelisted_at; rewrite Heq|].
  unfold whitelisted_at. rewrite Heq.
  destruct (decide (a' = a)) as [->|Hne]; [by destruct (Hno rest)|].
  by rewrite lookup_insert_ne.
Qed.

Lemma step_whitelist_true s c a :
  whitelisted_at (storage s) a = true →
  whitelisted_at (storage (step tutorial_registry s c)) a = true.
Proof.
  intros Hw.
  destruct (step_storage whitelist_source s c tutorial_whitelist_source)
    as [->|(sel & args & v & Hinv & [Heq|(-> & a' & rest & -> & Heq)])];
    [done|by unfold whitelisted_at; rewrite Heq|].
  unfold whitelisted_at. rewrite Heq.
  destruct (decide (a' = a)) as [->|Hne];
    [by rewrite lookup_insert_eq|by rewrite lookup_insert_ne].
Qed.

Lemma run_whitelist_false s cs a :
  whitelisted_at (storage s) a = false →
  (∀ c rest, c ∈ cs → ¬ invokes c "addUser" (VAddr a :: rest)) →
  whitelisted_at (storage (run tutorial_registry s cs)) a = false.
Proof.
  revert s. induction cs as [|c cs IH]; simpl; intros s Hw Hno; [done|].
  apply IH.
  - apply step_whitelist_false; [done|]. intros rest. apply Hno. by left.
  - intros c' rest Hin. apply Hno. by right.
Qed.

Lemma run_whitelist_true s cs a :
  whitelisted_at (storage s) a = true →
  whitelisted_at (storage (run tutorial_registry s cs)) a = true.
Proof.
  revert s. induction cs as [|c cs IH]; simpl; intros s Hw; [done|].
  by apply IH, step_whitelist_true.
Qed.

(** C6.  For every Instance of the tutorial, whatever calls it has received
    since deployment: while V2 is active (in particular right after the
    upgrade to V2), [verifyUser(a)] returns false for every address [a] for
    which [addUser(a)] was never called, directly or as the migration call
    of an upgrade. *)
Theorem verifyUser_default_false (initial : impl_id) (admin a : address)
    (cs : list call) (env : Env) :
  a ≤ MAX_ADDRESS →
  (∀ c rest, c ∈ cs → ¬ invokes c "addUser" (VAddr a :: rest)) →
  active_implementation (run tutorial_registry (deploy initial admin) cs)
  = Some ID_V2 →
  exec tutorial_registry env "verifyUser" [VAddr a]
    (run tutorial_registry (deploy initial admin) cs)
  = (run tutorial_registry (deploy initial admin) cs, Success (VBool false)).
Proof.
  intros Ha Hno Hact. apply exec_Ok.
  rewrite handle_verifyUser by done.
  by rewrite run_whitelist_false.
Qed.

Lemma verifyUser_default_false_witness :
  (5 ≤ MAX_ADDRESS ∧
   active_implementation
     (run tutorial_registry (deploy ID_V1 7)
        [mkCall (mkEnv 9 1000) "initialize" [];
         mkCall (mkEnv 5 1001) "mint" [VAddr 5; VUint 100];
         mkCall (mkEnv 7 1002) "upgrade" [VUint 1]])
   = Some ID_V2) ∧
  exec tutorial_registry (mkEnv 5 1003) "verifyUser" [VAddr 5]
    (run tutorial_registry (deploy ID_V1 7)
       [mkCall (mkEnv 9 1000) "initialize" [];
        mkCall (mkEnv 5 1001) "mint" [VAddr 5; VUint 100];
        mkCall (mkEnv 7 1002) "upgrade" [VUint 1]])
  = (run tutorial_registry (deploy ID_V1 7)
       [mkCall (mkEnv 9 1000) "initialize" [];
        mkCall (mkEnv 5 1001) "mint" [VAddr 5; VUint 100];
        mkCall (mkEnv 7 1002) "upgrade" [VUint 1]],
     Success (VBool false)).
Proof.
  assert (5 ≤ MAX_ADDRESS) as Ha by (vm_compute; discriminate).
  split; [by split|].
  apply (verifyUser_default_false ID_V1 7 5 _ (mkEnv 5 1003) Ha);
    [|reflexivity].
  intros c rest Hin Hinv.
  repeat (apply elem_of_cons in Hin as [->|Hin]; [by inversion Hinv|]).
  by apply elem_of_nil in Hin.
Defined.

Lemma transition_verifyUser s c s' :
  call_selector c = "verifyUser" →
  transition tutorial_registry s c s' → s' = s.
Proof.
  intros Hsel Htr.
  destruct Htr as [|id impl m v st' Hid Hres Hm Hrun|a Hadm Hs|? ? ? ? Hs
                  |? ? ? ? ? ? ? ? ? ? Hs]; try congruence.
  pose proof (tutorial_satisfies_lookup _ _ _ _ _ _ _ _ _ _
                tutorial_verifyUser_pure Hres Hm Hrun Hsel) as ->.
  apply set_storage_id.
Qed.

(** C10.  For every Instance of the tutorial and every address [a]: once
    [verifyUser(a)] has returned true, it returns true after any further
    calls by anyone whenever V2 is active, since no call clears a whitelist
    entry; and a [verifyUser] call never changes the Instance. *)
Theorem whitelist_monotone (s : Instance) (a : address) (cs : list call)
    (env env' : Env) :
  a ≤ MAX_ADDRESS →
  active_implementation s = Some ID_V2 →
  exec tutorial_registry env "verifyUser" [VAddr a] s
  = (s, Success (VBool true)) →
  (active_implementation (run tutorial_registry s cs) = Some ID_V2 →
   exec tutorial_registry env' "verifyUser" [VAddr a]
     (run tutorial_registry s cs)
   = (run tutorial_registry s cs, Success (VBool true))) ∧
  (∀ (s0 : Instance) (env0 : Env) (args0 : list val),
     fst (exec tutorial_registry env0 "verifyUser" args0 s0) = s0).
Proof.
  intros Ha Hact Htrue. split.
  - intros Hact'. apply exec_Ok.
    rewrite handle_verifyUser by done.
    rewrite run_whitelist_true; [done|].
    unfold exec in Htrue. rewrite handle_verifyUser in Htrue by done.
    by simplify_eq.
  - intros s0 env0 args0.
    by apply (transition_verifyUser s0 (mkCall env0 "verifyUser" args0)),
         step_transition.
Qed.

Lemma whitelist_monotone_witness :
  (5 ≤ MAX_ADDRESS ∧
   active_implementation demo_whitelisted = Some ID_V2 ∧
   exec tutorial_registry (mkEnv 5 1004) "verifyUser" [VAddr 5]
     demo_whitelisted
   = (demo_whitelisted, Success (VBool true))) ∧
  exec tutorial_registry (mkEnv 6 1006) "verifyUser" [VAddr 5]
    (run tutorial_registry demo_whitelisted
       [mkCall (mkEnv 9 1005) "renounceOwnership" []])
  = (run tutorial_registry demo_whitelisted
       [mkCall (mkEnv 9 1005) "renounceOwnership" []],
     Success (VBool true)).
Proof.
  assert (5 ≤ MAX_ADDRESS) as Ha by (vm_compute; discriminate).
  assert (exec tutorial_registry (mkEnv 5 1004) "verifyUser" [VAddr 5]
            demo_whitelisted
          = (demo_whitelisted, Success (VBool true))) as Htrue
    by (by vm_compute).
  assert (active_implementation demo_whitelisted = Some ID_V2) as Hact
    by (by vm_compute).
  assert (active_implementation
            (run tutorial_registry demo_whitelisted
               [mkCall (mkEnv 9 1005) "renounceOwnership" []])
          = Some ID_V2) as Hact' by (by vm_compute).
  split; [exact (conj Ha (conj Hact Htrue))|].
  exact (proj1 (whitelist_monotone demo_whitelisted 5
                  [mkCall (mkEnv 9 1005) "renounceOwnership" []]
                  (mkEnv 5 1004) (mkEnv 6 1006) Ha Hact Htrue) Hact').
Defined.

(** ** Implementation contracts called directly (claim C8) *)

Lemma constructed_locked impl :
  impl = V1.impl ∨ impl = V2.impl →
  ∃ st0, constructed impl = Some st0 ∧ locked st0.
Proof. intros [->| ->]; eexists; by split. Qed.

Lemma direct_step_locked impl st c :
  impl = V1.impl ∨ impl = V2.impl →
  locked st → locked (direct_step impl st c).
Proof.
  intros Himpl [Hv Hi]. unfold direct_step, direct_call.
  destruct (lookup_method _ _) as [m|] eqn:Hm; [|done].
  destruct (m _ _ _) as [[v st']|e] eqn:Hrun; [|done].
  assert (guard_steps (call_selector c) (caller_identity (call_env c))
            (call_args c) st v st') as Hg.
  { destruct tutorial_guard_steps as [H1 H2].
    destruct Himpl as [->| ->].
    - exact (satisfies_lookup _ _ _ _ _ _ _ _ _ H1 Hm Hrun).
    - exact (satisfies_lookup _ _ _ _ _ _ _ _ _ H2 Hm Hrun). }
  destruct (Hg Hi) as [Hi' [Hv'|[Hz _]]].
  - split; [congruence|done].
  - rewrite Hv in Hz. discriminate.
Qed.

Lemma direct_run_locked impl st cs :
  impl = V1.impl ∨ impl = V2.impl →
  locked st → locked (direct_run impl st cs).
Proof.
  intros Himpl. revert st.
  induction cs as [|c cs IH]; simpl; intros st Hl; [done|].
  by apply IH, direct_step_locked.
Qed.

Lemma direct_initialize_locked impl sender args st :
  impl = V1.impl ∨ impl = V2.impl →
  locked st →
  direct_call impl sender "initialize" args st = Err AlreadyInitialized.
Proof.
  intros [->| ->] [Hv Hi]; unfold direct_call; simpl; unfold_contract; simpl.
  all: by rewrite Hi, Hv.
Qed.

Lemma tutorial_setup_kept : tutorial_satisfies setup_kept.
Proof.
  split; each_method; unfold setup_kept; simpl; intros Hv; try done.
  all: match goal with
       | H : (_ <? 1) = true |- _ => apply N.ltb_lt in H; lia
       end.
Qed.

Lemma direct_step_setup_kept impl st c :
  impl = V1.impl ∨ impl = V2.impl →
  _initialized st ≠ 0 →
  _name (direct_step impl st c) = _name st ∧
  _symbol (direct_step impl st c) = _symbol st.
Proof.
  intros Himpl Hv. unfold direct_step, direct_call.
  destruct (lookup_method _ _) as [m|] eqn:Hm; [|done].
  destruct (m _ _ _) as [[v st']|e] eqn:Hrun; [|done].
  destruct tutorial_setup_kept as [H1 H2].
  destruct Himpl as [->| ->].
  - exact (satisfies_lookup _ _ _ _ _ _ _ _ _ H1 Hm Hrun Hv).
  - exact (satisfies_lookup _ _ _ _ _ _ _ _ _ H2 Hm Hrun Hv).
Qed.

Lemma direct_run_setup_kept impl st cs :
  impl = V1.impl ∨ impl = V2.impl →
  locked st →
  _name (direct_run impl st cs) = _name st ∧
  _symbol (direct_run impl st cs) = _symbol st.
Proof.
  intros Himpl. revert st.
  induction cs as [|c cs IH]; simpl; intros st Hl; [done|].
  destruct (IH (direct_step impl st c)) as [Hn Hs];
    [by apply direct_step_locked|].
  destruct (direct_step_setup_kept impl st c Himpl) as [Hn' Hs'].
  { destruct Hl as [-> _]. discriminate. }
  split; congruence.
Qed.

(** C8, as amended.  For V1 and for V2: the constructor of the
    implementation contract succeeds and leaves its own storage with the
    initializers disabled, and from then on, after any direct calls by
    anyone, a direct [initialize] call fails for every caller and every
    argument list; the contract's own storage is therefore never
    initialized: its guard stays locked and its token name and symbol stay
    unset. *)
Theorem implementation_initialize_disabled (impl : implementation)
    (cs : list call) (sender : address) (args : list val) :
  impl = V1.impl ∨ impl = V2.impl →
  ∃ st0,
    constructed impl = Some st0 ∧
    _initialized st0 = MAX_UINT8 ∧
    _initialized (direct_run impl st0 cs) = MAX_UINT8 ∧
    direct_call impl sender "initialize" args (direct_run impl st0 cs)
    = Err AlreadyInitialized ∧
    _name (direct_run impl st0 cs) = EmptyString ∧
    _symbol (direct_run impl st0 cs) = EmptyString.
Proof.
  intros Himpl.
  destruct (constructed_locked impl Himpl) as (st0 & Hc & Hl).
  pose proof (direct_run_locked impl st0 cs Himpl Hl) as Hl'.
  destruct (direct_run_setup_kept impl st0 cs Himpl Hl) as [Hn Hs].
  exists st0. split; [done|]. split; [apply Hl|]. split; [apply Hl'|].
  split; [by apply direct_initialize_locked|].
  rewrite Hn, Hs.
  destruct Himpl as [->| ->]; unfold constructed in Hc; simpl in Hc;
    by simplify_eq.
Qed.

Lemma implementation_initialize_disabled_witness :
  (V1.impl = V1.impl ∨ V1.impl = V2.impl) ∧
  ∃ st0,
    constructed V1.impl = Some st0 ∧
    _initialized st0 = MAX_UINT8 ∧
    _initialized
      (direct_run V1.impl st0
         [mkCall (mkEnv 5 1000) "mint" [VAddr 5; VUint 100]]) = MAX_UINT8 ∧
    direct_call V1.impl 9 "initialize" []
      (direct_run V1.impl st0
         [mkCall (mkEnv 5 1000) "mint" [VAddr 5; VUint 100]])
    = Err AlreadyInitialized ∧
    _name
      (direct_run V1.impl st0
         [mkCall (mkEnv 5 1000) "mint" [VAddr 5; VUint 100]]) = EmptyString ∧
    _symbol
      (direct_run V1.impl st0
         [mkCall (mkEnv 5 1000) "mint" [VAddr 5; VUint 100]]) = EmptyString.
Proof.
  split; [by left|].
  exact (implementation_initialize_disabled V1.impl
           [mkCall (mkEnv 5 1000) "mint" [VAddr 5; VUint 100]] 9 []
           (or_introl eq_refl)).
Defined.

(** C8 as stated fails in its closing clause: the V1 implementation
    contract, called directly, keeps state of its own.  After its
    constructor, a direct [mint], [transfer] and [approve] leave balances
    of 70 and 30, a total supply of 100 and an allowance of 7 in its own
    storage, and a later direct [balanceOf] reads them back. *)
Lemma implementation_holds_state :
  constructed V1.impl = Some (set_initialized MAX_UINT8 empty_storage) ∧
  balance_at demo_implementation_storage 5 = 70 ∧
  balance_at demo_implementation_storage 6 = 30 ∧
  _totalSupply demo_implementation_storage = 100 ∧
  allowance_at demo_implementation_storage 5 6 = 7 ∧
  direct_call V1.impl 6 "balanceOf" [VAddr 5] demo_implementation_storage
  = Ok (VUint 70, demo_implementation_storage).
Proof. by vm_compute. Qed.

(** ** Pausing (claim C9) *)

Lemma transfer_selector_business sel :
  is_transfer_selector sel = true → is_management sel = false.
Proof.
  unfold is_transfer_selector, transfer_selectors; simpl.
  repeat match goal with
         | |- context [String.eqb sel ?x] =>
             destruct (String.eqb_spec sel x) as [->|_];
             [intros _; reflexivity|]
         end.
  simpl. intros H. discriminate H.
Qed.

(** C9.  On every reachable Instance and for every call by anyone: a call
    that moves the Instance between the paused and the unpaused state was
    made by the owner; and while the Instance is paused, the call changes no
    balance and leaves the total supply as it is, and every [mint], [burn],
    [burnFrom], [transfer] and [transferFrom] call fails. *)
Theorem paused_freezes_balances (s : Instance) (c : call) :
  reachable s →
  (_paused (storage (step tutorial_registry s c)) ≠ _paused (storage s) →
   caller_identity (call_env c) = _owner (storage s)) ∧
  (_paused (storage s) = true →
   _balances (storage (step tutorial_registry s c)) = _balances (storage s) ∧
   _totalSupply (storage (step tutorial_registry s c))
   = _totalSupply (storage s) ∧
   (is_transfer_selector (call_selector c) = true →
    ∃ e, exec tutorial_registry (call_env c) (call_selector c) (call_args c) s
         = (s, Failure e))).
Proof.
  intros Hreach.
  destruct (reachable_invariant s Hreach) as [Ha Hg Hu Hs].
  split; [|intros Hp; split; [|split]].
  - intros Hch.
    destruct (step_storage pause_by_owner s c tutorial_pause_by_owner)
      as [Heq|(sel & args & v & _ & H)]; [by rewrite Heq in Hch|].
    apply H; [|done]. intros Hz. by apply Hu.
  - destruct (step_storage paused_frozen s c tutorial_paused_frozen)
      as [->|(sel & args & v & _ & H)]; [done|]. by apply H.
  - destruct (step_storage paused_frozen s c tutorial_paused_frozen)
      as [->|(sel & args & v & _ & H)]; [done|]. by apply H.
  - intros Hsel. unfold exec.
    destruct (handle _ _ _ _ _) as [[v s']|e] eqn:Hh; [|by eexists].
    destruct Ha as (id & impl & Hid & Hres).
    rewrite (handle_tutorial_business _ _ _ _ id impl) in Hh;
      [|by apply transfer_selector_business|done|done].
    apply forward_Ok in Hh as (m & st' & Hm & Hrun & _).
    pose proof (tutorial_satisfies_lookup _ _ _ _ _ _ _ _ _ _
                  tutorial_paused_reverts Hres Hm Hrun Hp) as Hno.
    congruence.
Qed.

Lemma demo_paused_reachable : reachable demo_paused.
Proof. apply reachable_step; [apply demo_minted_reachable|done]. Qed.

Lemma paused_freezes_balances_witness :
  (reachable demo_paused ∧ _paused (storage demo_paused) = true) ∧
  _balances
    (storage
       (step tutorial_registry demo_paused
          (mkCall (mkEnv 5 1003) "transfer" [VAddr 6; VUint 10])))
  = _balances (storage demo_paused).
Proof.
  assert (_paused (storage demo_paused) = true) as Hp by (by vm_compute).
  split; [split; [apply demo_paused_reachable|exact Hp]|].
  apply (proj2 (paused_freezes_balances demo_paused
                  (mkCall (mkEnv 5 1003) "transfer" [VAddr 6; VUint 10])
                  demo_paused_reachable) Hp).
Defined.

(** ** Supporting facts *)

(** Whatever the selector, a call by someone other than the admin leaves
    the metadata of the Instance as it is. *)
Lemma non_admin_metadata_frame reg env sel args s v s' :
  caller_identity env ≠ admin_identity s →
  handle reg env sel args s = Ok (v, s') →
  active_implementation s' = active_implementation s ∧
  admin_identity s' = admin_identity s ∧
  upgrade_log s' = upgrade_log s.
Proof.
  intros Hne%N.eqb_neq. unfold handle. rewrite Hne.
  destruct (is_management sel), (active_code reg s) as [impl|];
    try done; try destruct (defines impl sel); try done.
  all: by intros (m & st' & _ & _ & ->)%forward_Ok.
Qed.

(** The upgrade log only grows. *)
Lemma step_log_nonempty s c :
  upgrade_log s ≠ [] → upgrade_log (step tutorial_registry s c) ≠ [].
Proof.
  intros Hlog.
  destruct (step_transition tutorial_registry s c); simpl; try done.
  all: by intros [? _]%app_eq_nil.
Qed.

Lemma run_log_nonempty s cs :
  upgrade_log s ≠ [] → upgrade_log (run tutorial_registry s cs) ≠ [].
Proof.
  revert s. induction cs as [|c cs IH]; simpl; intros s Hlog; [done|].
  by apply IH, step_log_nonempty.
Qed.

Lemma step_never_upgraded s c :
  active_implementation s = Some ID_V1 →
  whitelistedAddresses (storage s) = ∅ →
  upgrade_log (step tutorial_registry s c) = [] →
  active_implementation (step tutorial_registry s c) = Some ID_V1 ∧
  whitelistedAddresses (storage (step tutorial_registry s c)) = ∅.
Proof.
  intros Hact Hw.
  destruct (step_transition tutorial_registry s c)
    as [|id impl m v st' Hid Hres Hm Hrun| | |]; simpl; try done.
  - intros _. split; [done|].
    rewrite Hact in Hid. simplify_eq. simpl in Hres. simplify_eq.
    by rewrite (satisfies_lookup _ _ _ _ _ _ _ _ _
                  V1_whitelist_untouched Hm Hrun).
  - by intros [_ ?]%app_eq_nil.
  - by intros [_ ?]%app_eq_nil.
Qed.

(** An Instance deployed on V1 and never upgraded runs V1 and has an empty
    whitelist: right after its first upgrade to V2, no address is
    whitelisted. *)
Lemma never_upgraded_whitelist_empty admin cs :
  upgrade_log (run tutorial_registry (deploy ID_V1 admin) cs) = [] →
  active_implementation (run tutorial_registry (deploy ID_V1 admin) cs)
  = Some ID_V1 ∧
  whitelistedAddresses
    (storage (run tutorial_registry (deploy ID_V1 admin) cs)) = ∅.
Proof.
  assert (∀ s,
            active_implementation s = Some ID_V1 →
            whitelistedAddresses (storage s) = ∅ →
            upgrade_log (run tutorial_registry s cs) = [] →
            active_implementation (run tutorial_registry s cs) = Some ID_V1 ∧
            whitelistedAddresses (storage (run tutorial_registry s cs)) = ∅)
    as Hgen.
  { induction cs as [|c cs IH]; simpl; intros s Hact Hw Hlog; [done|].
    destruct (decide (upgrade_log (step tutorial_registry s c) = []))
      as [Hnil|Hne].
    - destruct (step_never_upgraded s c Hact Hw Hnil). by apply IH.
    - by destruct (run_log_nonempty _ cs Hne). }
  by apply Hgen.
Qed.

Lemma first_upgrade_all_false admin cs env env' a :
  a ≤ MAX_ADDRESS →
  caller_identity env
  = admin_identity (run tutorial_registry (deploy ID_V1 admin) cs) →
  upgrade_log (run tutorial_registry (deploy ID_V1 admin) cs) = [] →
  ∃ s',
    exec tutorial_registry env "upgrade" [VUint 1]
      (run tutorial_registry (deploy ID_V1 admin) cs)
    = (s', Success VUnit) ∧
    exec tutorial_registry env' "verifyUser" [VAddr a] s'
    = (s', Success (VBool false)).
Proof.
  intros Ha Hadm Hlog.
  destruct (never_upgraded_whitelist_empty admin cs Hlog) as [Hact Hw].
  set (s := run tutorial_registry (deploy ID_V1 admin) cs) in *.
  eexists. split.
  - apply exec_Ok.
    by apply (upgrade_by_admin tutorial_registry env ID_V2 V2.impl).
  - apply exec_Ok. rewrite handle_verifyUser by done.
    unfold whitelisted_at; simpl. by rewrite Hw.
Qed.

(** * Further properties of the contracts and the scripts *)

Lemma tutorial_renounced_frozen : tutorial_satisfies renounced_frozen.
Proof.
  split; each_method; unfold renounced_frozen; simpl; intros Hs Ho Hv;
    try done.
  all: repeat match goal with
         | H : (_ =? _) = true |- _ => apply N.eqb_eq in H
         | H : (_ <? 1) = true |- _ => apply N.ltb_lt in H
         end; try congruence; lia.
Qed.

Lemma tutorial_zero_balance_kept : tutorial_satisfies zero_balance_kept.
Proof.
  split; each_method; unfold zero_balance_kept, balance_at in *; simpl in *;
    intros Hz; try done.
  all: repeat match goal with
         | H : negb (_ =? _) = true |- _ =>
             apply negb_true_iff, N.eqb_neq in H
         end.
  all: by rewrite ?lookup_insert_ne by done.
Qed.

Lemma tutorial_mint_effect : tutorial_satisfies mint_effect.
Proof.
  split; each_method; unfold mint_effect; intros Hsel; try done.
  all: repeat match goal with
         | H : (_ <=? _) = true |- _ => apply N.leb_le in H
         | H : negb (_ =? _) = true |- _ =>
             apply negb_true_iff, N.eqb_neq in H
         | H : negb _ = true |- _ => apply negb_true_iff in H
         end.
  all: eexists _, _, _; repeat split; try done.
Qed.

(** ** What [initialize] sets up *)

(** X1.  On an Instance of the tutorial whose initializer has not run, a
    successful [initialize] by any caller names the token
    "ERC20Upgradable" / "EUC", makes the caller the owner, leaves the token
    unpaused and closes the guard; it keeps every balance, allowance and
    whitelist entry and the total supply that were there before, and the
    metadata of the Instance. *)
Theorem initialize_effect (s : Instance) (env : Env) (args : list val)
    (id : impl_id) (impl : implementation) :
  active_implementation s = Some id →
  resolve tutorial_registry id = Some impl →
  _initializing (storage s) = false →
  _initialized (storage s) = 0 →
  ∃ s',
    exec tutorial_registry env "initialize" args s = (s', Success VUnit) ∧
    _name (storage s') = "ERC20Upgradable" ∧
    _symbol (storage s') = "EUC" ∧
    _owner (storage s') = caller_identity env ∧
    _paused (storage s') = false ∧
    _initialized (storage s') = 1 ∧
    _initializing (storage s') = false ∧
    _balances (storage s') = _balances (storage s) ∧
    _allowances (storage s') = _allowances (storage s) ∧
    _totalSupply (storage s') = _totalSupply (storage s) ∧
    whitelistedAddresses (storage s') = whitelistedAddresses (storage s) ∧
    active_implementation s' = active_implementation s ∧
    admin_identity s' = admin_identity s ∧
    upgrade_log s' = upgrade_log s.
Proof.
  intros Hid Hres Hi Hv. eexists. split.
  - apply exec_Ok.
    rewrite (handle_tutorial_business _ _ _ _ id impl) by done.
    apply forward_initialize_fresh; [by eapply resolve_tutorial_impl|done..].
  - by repeat split.
Qed.

Lemma initialize_effect_witness :
  (active_implementation demo_deployed = Some ID_V1 ∧
   resolve tutorial_registry ID_V1 = Some V1.impl ∧
   _initializing (storage demo_deployed) = false ∧
   _initialized (storage demo_deployed) = 0) ∧
  ∃ s',
    exec tutorial_registry (mkEnv 9 1000) "initialize" [] demo_deployed
    = (s', Success VUnit) ∧
    _name (storage s') = "ERC20Upgradable" ∧
    _symbol (storage s') = "EUC" ∧
    _owner (storage s') = 9.
Proof.
  split; [exact (conj eq_refl (conj eq_refl (conj eq_refl eq_refl)))|].
  destruct (initialize_effect demo_deployed (mkEnv 9 1000) [] ID_V1 V1.impl
              eq_refl eq_refl eq_refl eq_refl)
    as (s' & H1 & H2 & H3 & H4 & _).
  exists s'. by repeat split.
Defined.

(** ** Pausing *)

Lemma handle_pause s env args id impl :
  active_implementation s = Some id →
  resolve tutorial_registry id = Some impl →
  caller_identity env = _owner (storage s) →
  _paused (storage s) = false →
  handle tutorial_registry env "pause" args s
  = Ok (VUnit, set_storage (set_paused true (storage s)) s).
Proof.
  intros Hid Hres Ho Hp.
  rewrite (handle_tutorial_business _ _ _ _ id impl) by done.
  destruct (resolve_tutorial_impl _ _ Hres) as [->| ->]; run_method.
  all: by rewrite <- Ho, N.eqb_refl; simpl; rewrite Hp.
Qed.

Lemma handle_unpause s env args id impl :
  active_implementation s = Some id →
  resolve tutorial_registry id = Some impl →
  caller_identity env = _owner (storage s) →
  _paused (storage s) = true →
  handle tutorial_registry env "unpause" args s
  = Ok (VUnit, set_storage (set_paused false (storage s)) s).
Proof.
  intros Hid Hres Ho Hp.
  rewrite (handle_tutorial_business _ _ _ _ id impl) by done.
  destruct (resolve_tutorial_impl _ _ Hres) as [->| ->]; run_method.
  all: by rewrite <- Ho, N.eqb_refl; simpl; rewrite Hp.
Qed.

(** X2.  On an Instance of the tutorial, [pause] followed by [unpause],
    both called by the owner, brings an unpaused Instance back to exactly
    the state it was in; in between it is paused.  The same holds for
    [unpause] followed by [pause] on a paused Instance. *)
Theorem pause_unpause_round_trip (s : Instance) (e1 e2 : Env)
    (a1 a2 : list val) (id : impl_id) (impl : implementation) :
  active_implementation s = Some id →
  resolve tutorial_registry id = Some impl →
  caller_identity e1 = _owner (storage s) →
  caller_identity e2 = _owner (storage s) →
  (_paused (storage s) = false →
   _paused (storage (step tutorial_registry s (mkCall e1 "pause" a1))) = true ∧
   step tutorial_registry
     (step tutorial_registry s (mkCall e1 "pause" a1))
     (mkCall e2 "unpause" a2) = s) ∧
  (_paused (storage s) = true →
   _paused (storage (step tutorial_registry s (mkCall e1 "unpause" a1)))
   = false ∧
   step tutorial_registry
     (step tutorial_registry s (mkCall e1 "unpause" a1))
     (mkCall e2 "pause" a2) = s).
Proof.
  intros Hid Hres Ho1 Ho2. split; intros Hp.
  - rewrite (step_Ok _ _ (mkCall e1 "pause" a1) _ _
               (handle_pause s e1 a1 id impl Hid Hres Ho1 Hp)).
    split; [done|].
    erewrite (step_Ok _ _ (mkCall e2 "unpause" a2));
      [|by apply (handle_unpause _ e2 a2 id impl)].
    destruct s as [? ? ? st]; simpl in *. f_equal.
    rewrite <- Hp. by destruct st.
  - rewrite (step_Ok _ _ (mkCall e1 "unpause" a1) _ _
               (handle_unpause s e1 a1 id impl Hid Hres Ho1 Hp)).
    split; [done|].
    erewrite (step_Ok _ _ (mkCall e2 "pause" a2));
      [|by apply (handle_pause _ e2 a2 id impl)].
    destruct s as [? ? ? st]; simpl in *. f_equal.
    rewrite <- Hp. by destruct st.
Qed.

Lemma pause_unpause_round_trip_witness :
  (active_implementation demo_minted = Some ID_V1 ∧
   resolve tutorial_registry ID_V1 = Some V1.impl ∧
   caller_identity (mkEnv 9 1002) = _owner (storage demo_minted) ∧
   caller_identity (mkEnv 9 1003) = _owner (storage demo_minted) ∧
   _paused (storage demo_minted) = false) ∧
  step tutorial_registry
    (step tutorial_registry demo_minted (mkCall (mkEnv 9 1002) "pause" []))
    (mkCall (mkEnv 9 1003) "unpause" []) = demo_minted.
Proof.
  assert (active_implementation demo_minted = Some ID_V1) as H1
    by (by vm_compute).
  assert (caller_identity (mkEnv 9 1002) = _owner (storage demo_minted))
    as H2 by (by vm_compute).
  assert (caller_identity (mkEnv 9 1003) = _owner (storage demo_minted))
    as H3 by (by vm_compute).
  assert (_paused (storage demo_minted) = false) as H4 by (by vm_compute).
  split; [exact (conj H1 (conj eq_refl (conj H2 (conj H3 H4))))|].
  exact (proj2 (proj1 (pause_unpause_round_trip demo_minted (mkEnv 9 1002)
                         (mkEnv 9 1003) [] [] ID_V1 V1.impl H1 eq_refl H2 H3)
                  H4)).
Defined.

(** X3.  On an Instance of the tutorial, [pause] and [unpause], and under
    V2 [addUser] for any address, fail with "Ownable: caller is not the
    owner" for every caller other than the owner, whatever the pause state,
    and leave the Instance as it was. *)
Theorem owner_only_functions (s : Instance) (env : Env) (sel : string)
    (args : list val) (id : impl_id) (impl : implementation) :
  active_implementation s = Some id →
  resolve tutorial_registry id = Some impl →
  caller_identity env ≠ _owner (storage s) →
  sel = "pause" ∨ sel = "unpause" ∨
  (sel = "addUser" ∧ id = ID_V2 ∧
   ∃ a rest, args = VAddr a :: rest ∧ a ≤ MAX_ADDRESS) →
  exec tutorial_registry env sel args s
  = (s, Failure (Revert "Ownable: caller is not the owner")).
Proof.
  intros Hid Hres Hne%not_eq_sym%N.eqb_neq Hsel. apply exec_Err.
  destruct Hsel as [->|[->|(-> & -> & a & rest & -> & Ha)]].
  - rewrite (handle_tutorial_business _ _ _ _ id impl) by done.
    destruct (resolve_tutorial_impl _ _ Hres) as [->| ->]; run_method;
      by rewrite Hne.
  - rewrite (handle_tutorial_business _ _ _ _ id impl) by done.
    destruct (resolve_tutorial_impl _ _ Hres) as [->| ->]; run_method;
      by rewrite Hne.
  - rewrite (handle_tutorial_business _ _ _ _ ID_V2 V2.impl) by done.
    run_method. rewrite (is_address_true _ Ha); simpl. by rewrite Hne.
Qed.

Lemma owner_only_functions_witness :
  (active_implementation demo_minted = Some ID_V1 ∧
   resolve tutorial_registry ID_V1 = Some V1.impl ∧
   caller_identity (mkEnv 5 1002) ≠ _owner (storage demo_minted)) ∧
  exec tutorial_registry (mkEnv 5 1002) "pause" [] demo_minted
  = (demo_minted, Failure (Revert "Ownable: caller is not the owner")).
Proof.
  assert (active_implementation demo_minted = Some ID_V1) as H1
    by (by vm_compute).
  assert (caller_identity (mkEnv 5 1002) ≠ _owner (storage demo_minted))
    as H2 by (by vm_compute).
  split; [exact (conj H1 (conj eq_refl H2))|].
  exact (owner_only_functions demo_minted (mkEnv 5 1002) "pause" [] ID_V1
           V1.impl H1 eq_refl H2 (or_introl eq_refl)).
Defined.

(** X4.  On an Instance of the tutorial, the owner cannot pause twice:
    [pause] on a paused Instance fails with "Pausable: paused" and [unpause]
    on an unpaused one with "Pausable: not paused", changing nothing. *)
Theorem pause_state_guards (s : Instance) (env : Env) (args : list val)
    (id : impl_id) (impl : implementation) :
  active_implementation s = Some id →
  resolve tutorial_registry id = Some impl →
  caller_identity env = _owner (storage s) →
  (_paused (storage s) = true →
   exec tutorial_registry env "pause" args s
   = (s, Failure (Revert "Pausable: paused"))) ∧
  (_paused (storage s) = false →
   exec tutorial_registry env "unpause" args s
   = (s, Failure (Revert "Pausable: not paused"))).
Proof.
  intros Hid Hres Ho.
  split; intros Hp; apply exec_Err;
    rewrite (handle_tutorial_business _ _ _ _ id impl) by done;
    destruct (resolve_tutorial_impl _ _ Hres) as [->| ->]; run_method;
    by rewrite <- Ho, N.eqb_refl; simpl; rewrite Hp.
Qed.

Lemma pause_state_guards_witness :
  (active_implementation demo_paused = Some ID_V1 ∧
   resolve tutorial_registry ID_V1 = Some V1.impl ∧
   caller_identity (mkEnv 9 1003) = _owner (storage demo_paused) ∧
   _paused (storage demo_paused) = true) ∧
  exec tutorial_registry (mkEnv 9 1003) "pause" [] demo_paused
  = (demo_paused, Failure (Revert "Pausable: paused")).
Proof.
  assert (active_implementation demo_paused = Some ID_V1) as H1
    by (by vm_compute).
  assert (caller_identity (mkEnv 9 1003) = _owner (storage demo_paused))
    as H2 by (by vm_compute).
  assert (_paused (storage demo_paused) = true) as H3 by (by vm_compute).
  split; [exact (conj H1 (conj eq_refl (conj H2 H3)))|].
  exact (proj1 (pause_state_guards demo_paused (mkEnv 9 1003) [] ID_V1
                  V1.impl H1 eq_refl H2) H3).
Defined.

(** ** Minting *)

Lemma handle_mint_effect s env args v s' id impl :
  active_implementation s = Some id →
  resolve tutorial_registry id = Some impl →
  handle tutorial_registry env "mint" args s = Ok (v, s') →
  ∃ to amount rest,
    args = VAddr to :: VUint amount :: rest ∧
    to ≠ 0 ∧ _paused (storage s) = false ∧
    _totalSupply (storage s) + amount ≤ MAX_UINT256 ∧
    s' = set_storage (minted to amount (storage s)) s.
Proof.
  intros Hid Hres Hh.
  rewrite (handle_tutorial_business _ _ _ _ id impl) in Hh by done.
  apply forward_Ok in Hh as (m & st' & Hm & Hrun & ->).
  destruct (tutorial_satisfies_lookup _ _ _ _ _ _ _ _ _ _
              tutorial_mint_effect Hres Hm Hrun eq_refl)
    as (to & amount & rest & -> & Hz & Hp & Hsum & ->).
  by exists to, amount, rest.
Qed.

(** X5.  Under either implementation, a [mint] call that succeeds has
    written exactly two things: the total supply, which grows by the
    amount, and the balance of the recipient, which is credited the amount
    (in [uint256] arithmetic; on a reachable Instance that is the old
    balance plus the amount).  The recipient is not the zero address and
    the Instance was not paused; every other balance, every allowance, the
    owner, the pause flag, the whitelist and the metadata are as before. *)
Theorem mint_frame (s s' : Instance) (env : Env) (args : list val) (v : val)
    (id : impl_id) (impl : implementation) :
  active_implementation s = Some id →
  resolve tutorial_registry id = Some impl →
  handle tutorial_registry env "mint" args s = Ok (v, s') →
  ∃ to amount rest,
    args = VAddr to :: VUint amount :: rest ∧
    to ≠ 0 ∧ _paused (storage s) = false ∧
    _totalSupply (storage s') = _totalSupply (storage s) + amount ∧
    balance_at (storage s') to
    = unchecked_add (balance_at (storage s) to) amount ∧
    (reachable s →
     balance_at (storage s') to = balance_at (storage s) to + amount) ∧
    (∀ a, a ≠ to →
          balance_at (storage s') a = balance_at (storage s) a) ∧
    _allowances (storage s') = _allowances (storage s) ∧
    _owner (storage s') = _owner (storage s) ∧
    _paused (storage s') = _paused (storage s) ∧
    whitelistedAddresses (storage s') = whitelistedAddresses (storage s) ∧
    active_implementation s' = active_implementation s ∧
    admin_identity s' = admin_identity s ∧
    upgrade_log s' = upgrade_log s.
Proof.
  intros Hid Hres Hh.
  destruct (handle_mint_effect _ _ _ _ _ _ _ Hid Hres Hh)
    as (to & amount & rest & -> & Hz & Hp & Hsum & ->).
  exists to, amount, rest.
  assert (balance_at (minted to amount (storage s)) to
          = unchecked_add (balance_at (storage s) to) amount) as Hb
    by apply balance_at_minted.
  split; [done|]. split; [done|]. split; [done|]. split; [done|].
  split; [exact Hb|]. split.
  - intros Hreach.
    destruct (reachable_invariant s Hreach) as [_ _ _ [Hbal Hmax]].
    change (balance_at (minted to amount (storage s)) to
            = balance_at (storage s) to + amount).
    rewrite Hb. apply unchecked_add_small.
    pose proof (sum_balances_lookup_le (_balances (storage s)) to).
    unfold balance_at. lia.
  - split; [|by repeat split].
    intros a Ha; simpl. by apply balance_at_minted_ne.
Qed.

Lemma mint_frame_witness :
  (active_implementation demo_initialized = Some ID_V1 ∧
   resolve tutorial_registry ID_V1 = Some V1.impl ∧
   handle tutorial_registry (mkEnv 5 1001) "mint" [VAddr 5; VUint 100]
     demo_initialized
   = Ok (VUnit, demo_minted)) ∧
  ∃ to amount rest,
    [VAddr 5; VUint 100] = VAddr to :: VUint amount :: rest ∧
    to ≠ 0 ∧
    _totalSupply (storage demo_minted)
    = _totalSupply (storage demo_initialized) + amount ∧
    balance_at (storage demo_minted) to
    = balance_at (storage demo_initialized) to + amount.
Proof.
  assert (active_implementation demo_initialized = Some ID_V1) as H1
    by (by vm_compute).
  assert (handle tutorial_registry (mkEnv 5 1001) "mint"
            [VAddr 5; VUint 100] demo_initialized
          = Ok (VUnit, demo_minted)) as H2 by (by vm_compute).
  split; [exact (conj H1 (conj eq_refl H2))|].
  destruct (mint_frame demo_initialized demo_minted (mkEnv 5 1001)
              [VAddr 5; VUint 100] VUnit ID_V1 V1.impl H1 eq_refl H2)
    as (to & amount & rest & E & Hz & _ & Hs & _ & Hb & _).
  exists to, amount, rest.
  split; [done|]. split; [done|]. split; [done|].
  exact (Hb demo_initialized_reachable).
Defined.

(** X6.  Under V2 a [mint] call that succeeds went to a whitelisted
    recipient: V2 never mints to an address that [verifyUser] rejects. *)
Theorem V2_mint_only_whitelisted (s s' : Instance) (env : Env)
    (args : list val) (v : val) :
  active_implementation s = Some ID_V2 →
  handle tutorial_registry env "mint" args s = Ok (v, s') →
  ∃ to amount rest,
    args = VAddr to :: VUint amount :: rest ∧
    whitelisted_at (storage s) to = true.
Proof.
  intros Hid Hh.
  destruct (handle_mint_effect _ _ _ _ _ ID_V2 V2.impl Hid eq_refl Hh)
    as (to & amount & rest & -> & _).
  exists to, amount, rest. split; [done|].
  destruct (whitelisted_at (storage s) to) eqn:Hw; [done|].
  rewrite (handle_tutorial_business _ _ _ _ ID_V2 V2.impl) in Hh by done.
  apply forward_Ok in Hh as (m & st' & Hm & Hrun & _).
  simpl in Hm. simplify_eq. unfold_contract. simpl in Hrun.
  destruct (is_address to && is_uint256 amount); [|done].
  simpl in Hrun. by rewrite Hw in Hrun.
Qed.

Lemma V2_mint_only_whitelisted_witness :
  (active_implementation demo_whitelisted = Some ID_V2 ∧
   handle tutorial_registry (mkEnv 6 1004) "mint" [VAddr 5; VUint 50]
     demo_whitelisted
   = Ok (VUnit,
         step tutorial_registry demo_whitelisted
           (mkCall (mkEnv 6 1004) "mint" [VAddr 5; VUint 50]))) ∧
  ∃ to amount rest,
    [VAddr 5; VUint 50] = VAddr to :: VUint amount :: rest ∧
    whitelisted_at (storage demo_whitelisted) to = true.
Proof.
  assert (active_implementation demo_whitelisted = Some ID_V2) as H1
    by (by vm_compute).
  assert (handle tutorial_registry (mkEnv 6 1004) "mint"
            [VAddr 5; VUint 50] demo_whitelisted
          = Ok (VUnit,
                step tutorial_registry demo_whitelisted
                  (mkCall (mkEnv 6 1004) "mint" [VAddr 5; VUint 50])))
    as H2 by (by vm_compute).
  split; [exact (conj H1 H2)|].
  exact (V2_mint_only_whitelisted demo_whitelisted _ (mkEnv 6 1004)
           [VAddr 5; VUint 50] VUnit H1 H2).
Defined.

(** X7.  Under V2 [mint] checks the recipient, not the caller: for every
    caller, on every reachable unpaused Instance running V2, minting to a
    whitelisted non-zero address an amount that keeps the total supply
    within [uint256] succeeds and increases that balance by the amount. *)
Theorem V2_mint_any_caller (s : Instance) (env : Env) (to : address)
    (amount : N) :
  reachable s →
  active_implementation s = Some ID_V2 →
  whitelisted_at (storage s) to = true →
  _paused (storage s) = false →
  to ≠ 0 → to ≤ MAX_ADDRESS →
  _totalSupply (storage s) + amount ≤ MAX_UINT256 →
  ∃ s',
    exec tutorial_registry env "mint" [VAddr to; VUint amount] s
    = (s', Success VUnit) ∧
    balance_at (storage s') to = balance_at (storage s) to + amount.
Proof.
  intros Hreach Hact Hw Hp Hz Ha Hsum.
  destruct (reachable_invariant s Hreach) as [_ _ _ [Hbal Hmax]].
  eexists. split.
  - apply exec_Ok. by apply handle_mint_V2.
  - simpl. rewrite balance_at_minted. apply unchecked_add_small.
    pose proof (sum_balances_lookup_le (_balances (storage s)) to).
    unfold balance_at. lia.
Qed.

Lemma demo_whitelisted_reachable : reachable demo_whitelisted.
Proof.
  apply reachable_step; [|done].
  apply reachable_step; [apply demo_minted_reachable|done].
Qed.

Lemma V2_mint_any_caller_witness :
  (reachable demo_whitelisted ∧
   active_implementation demo_whitelisted = Some ID_V2 ∧
   whitelisted_at (storage demo_whitelisted) 5 = true ∧
   _paused (storage demo_whitelisted) = false ∧
   5 ≠ 0 ∧ 5 ≤ MAX_ADDRESS ∧
   _totalSupply (storage demo_whitelisted) + 50 ≤ MAX_UINT256) ∧
  ∃ s',
    exec tutorial_registry (mkEnv 6 1004) "mint" [VAddr 5; VUint 50]
      demo_whitelisted
    = (s', Success VUnit) ∧
    balance_at (storage s') 5 = balance_at (storage demo_whitelisted) 5 + 50.
Proof.
  assert (active_implementation demo_whitelisted = Some ID_V2) as H1
    by (by vm_compute).
  assert (whitelisted_at (storage demo_whitelisted) 5 = true) as H2
    by (by vm_compute).
  assert (_paused (storage demo_whitelisted) = false) as H3
    by (by vm_compute).
  assert (5 ≠ 0) as H4 by discriminate.
  assert (5 ≤ MAX_ADDRESS) as H5 by (vm_compute; discriminate).
  assert (_totalSupply (storage demo_whitelisted) + 50 ≤ MAX_UINT256) as H6
    by (vm_compute; discriminate).
  split.
  - exact (conj demo_whitelisted_reachable
             (conj H1 (conj H2 (conj H3 (conj H4 (conj H5 H6)))))).
  - exact (V2_mint_any_caller demo_whitelisted (mkEnv 6 1004) 5 50
             demo_whitelisted_reachable H1 H2 H3 H4 H5 H6).
Defined.

Lemma unchecked_add_add x a b :
  unchecked_add (unchecked_add x a) b = unchecked_add x (a + b).
Proof.
  unfold unchecked_add.
  rewrite N.Div0.add_mod_idemp_l. f_equal. lia.
Qed.

Lemma minted_minted to a b st :
  minted to b (minted to a st) = minted to (a + b) st.
Proof.
  unfold minted; simpl. unfold balance_at; simpl.
  rewrite lookup_insert_eq; simpl.
  rewrite insert_insert_eq, unchecked_add_add.
  unfold set_balances, set_totalSupply; simpl. f_equal. lia.
Qed.

(** X8.  Under V1, two [mint] calls to the same address, by any callers,
    leave the Instance exactly as one [mint] of the sum does. *)
Theorem V1_mint_compose (s : Instance) (e1 e2 e3 : Env) (to : address)
    (a b : N) :
  active_implementation s = Some ID_V1 →
  _paused (storage s) = false →
  to ≠ 0 → to ≤ MAX_ADDRESS →
  _totalSupply (storage s) + a + b ≤ MAX_UINT256 →
  step tutorial_registry
    (step tutorial_registry s (mkCall e1 "mint" [VAddr to; VUint a]))
    (mkCall e2 "mint" [VAddr to; VUint b])
  = step tutorial_registry s (mkCall e3 "mint" [VAddr to; VUint (a + b)]).
Proof.
  intros Hact Hp Hz Ha Hsum.
  rewrite (step_Ok _ _ (mkCall e1 "mint" [VAddr to; VUint a]) VUnit
             (set_storage (minted to a (storage s)) s))
    by (apply handle_mint_V1; try done; lia).
  rewrite (step_Ok _ _ (mkCall e2 "mint" [VAddr to; VUint b]) VUnit
             (set_storage (minted to b (minted to a (storage s))) s))
    by (apply (handle_mint_V1 (set_storage _ s)); simpl; try done; lia).
  rewrite (step_Ok _ _ (mkCall e3 "mint" [VAddr to; VUint (a + b)]) VUnit
             (set_storage (minted to (a + b) (storage s)) s))
    by (apply handle_mint_V1; try done; lia).
  by rewrite minted_minted.
Qed.

Lemma V1_mint_compose_witness :
  (active_implementation demo_initialized = Some ID_V1 ∧
   _paused (storage demo_initialized) = false ∧
   5 ≠ 0 ∧ 5 ≤ MAX_ADDRESS ∧
   _totalSupply (storage demo_initialized) + 60 + 40 ≤ MAX_UINT256) ∧
  step tutorial_registry
    (step tutorial_registry demo_initialized
       (mkCall (mkEnv 5 1001) "mint" [VAddr 5; VUint 60]))
    (mkCall (mkEnv 6 1002) "mint" [VAddr 5; VUint 40])
  = step tutorial_registry demo_initialized
      (mkCall (mkEnv 5 1001) "mint" [VAddr 5; VUint (60 + 40)]).
Proof.
  assert (active_implementation demo_initialized = Some ID_V1) as H1
    by (by vm_compute).
  assert (_paused (storage demo_initialized) = false) as H2
    by (by vm_compute).
  assert (5 ≠ 0) as H3 by discriminate.
  assert (5 ≤ MAX_ADDRESS) as H4 by (vm_compute; discriminate).
  assert (_totalSupply (storage demo_initialized) + 60 + 40 ≤ MAX_UINT256)
    as H5 by (vm_compute; discriminate).
  split; [exact (conj H1 (conj H2 (conj H3 (conj H4 H5))))|].
  exact (V1_mint_compose demo_initialized (mkEnv 5 1001) (mkEnv 6 1002)
           (mkEnv 5 1001) 5 60 40 H1 H2 H3 H4 H5).
Defined.

(** ** What the upgrade to V2 changes *)

Lemma V2_lookup_as_V1 sel :
  sel ∉ V2_changes →
  lookup_method sel V2.methods = lookup_method sel V1.methods.
Proof.
  unfold V2_changes. intros Hsel.
  assert (sel ≠ "mint" ∧ sel ≠ "addUser" ∧ sel ≠ "verifyUser")
    as (Hm & Ha & Hv) by set_solver.
  unfold V2.methods, V1.methods; cbn [lookup_method app].
  destruct (String.eqb_spec "addUser" sel) as [<-|_]; [done|].
  destruct (String.eqb_spec "verifyUser" sel) as [<-|_]; [done|].
  destruct (String.eqb_spec "initialize" sel) as [<-|_]; [done|].
  destruct (String.eqb_spec "pause" sel) as [<-|_]; [done|].
  destruct (String.eqb_spec "unpause" sel) as [<-|_]; [done|].
  destruct (String.eqb_spec "mint" sel) as [<-|_]; [done|].
  reflexivity.
Qed.

(** X9.  V2 changes [mint] and adds [addUser] and [verifyUser]; every
    other call behaves under V2 exactly as under V1: run against the same
    Instance it returns the same value or failure and leaves the same
    state.  [mint] itself behaves as under V1 whenever the recipient is
    whitelisted. *)
Theorem V2_behaves_as_V1 (s : Instance) (env : Env) (sel : string)
    (args : list val) :
  sel ∉ V2_changes ∨
  (sel = "mint" ∧
   ∃ to amount rest,
     args = VAddr to :: VUint amount :: rest ∧
     whitelisted_at (storage s) to = true) →
  forward V2.impl env sel args s = forward V1.impl env sel args s.
Proof.
  intros [Hsel|(-> & to & amount & rest & -> & Hw)].
  - unfold forward.
    change (impl_methods V2.impl) with V2.methods.
    change (impl_methods V1.impl) with V1.methods.
    by rewrite V2_lookup_as_V1.
  - unfold forward; simpl. unfold_contract; simpl.
    destruct (is_address to && is_uint256 amount); [|done].
    simpl. by rewrite Hw.
Qed.

Lemma V2_behaves_as_V1_witness :
  ("transfer" ∉ V2_changes ∨
   ("transfer" = "mint" ∧
    ∃ to amount rest,
      [VAddr 6; VUint 30] = VAddr to :: VUint amount :: rest ∧
      whitelisted_at (storage demo_minted) to = true)) ∧
  forward V2.impl (mkEnv 5 1002) "transfer" [VAddr 6; VUint 30] demo_minted
  = forward V1.impl (mkEnv 5 1002) "transfer" [VAddr 6; VUint 30] demo_minted.
Proof.
  assert ("transfer" ∉ V2_changes) as H.
  { unfold V2_changes. intros Hin.
    repeat (apply elem_of_cons in Hin as [Hin|Hin]; [discriminate Hin|]).
    by apply elem_of_nil in Hin. }
  split; [by left|].
  exact (V2_behaves_as_V1 demo_minted (mkEnv 5 1002) "transfer"
           [VAddr 6; VUint 30] (or_introl H)).
Defined.

(** ** Accounting *)

(** X10.  On every reachable Instance the balances add up to the total
    supply, the total supply fits a [uint256], and so no single balance
    exceeds the total supply: no sequence of mints, burns, transfers and
    upgrades breaks the token's accounting. *)
Theorem supply_is_sum_of_balances (s : Instance) :
  reachable s →
  sum_balances (_balances (storage s)) = _totalSupply (storage s) ∧
  _totalSupply (storage s) ≤ MAX_UINT256 ∧
  ∀ a, balance_at (storage s) a ≤ _totalSupply (storage s).
Proof.
  intros Hreach.
  destruct (reachable_invariant s Hreach) as [_ _ _ [Hbal Hmax]].
  split; [done|]. split; [done|]. intros a.
  rewrite <- Hbal. apply sum_balances_lookup_le.
Qed.

Lemma supply_is_sum_of_balances_witness :
  reachable demo_minted ∧
  sum_balances (_balances (storage demo_minted))
  = _totalSupply (storage demo_minted).
Proof.
  split; [exact demo_minted_reachable|].
  exact (proj1 (supply_is_sum_of_balances demo_minted demo_minted_reachable)).
Defined.

(** ** The whitelist *)

(** X11.  Under V2, [addUser(a)] called by the owner succeeds whatever the
    pause state; afterwards [a] is whitelisted, every other address is
    whitelisted exactly if it was before, and balances, total supply,
    pause flag and owner are untouched. *)
Theorem addUser_effect (s : Instance) (env : Env) (a : address) :
  active_implementation s = Some ID_V2 →
  caller_identity env = _owner (storage s) →
  a ≤ MAX_ADDRESS →
  ∃ s',
    exec tutorial_registry env "addUser" [VAddr a] s = (s', Success VUnit) ∧
    whitelisted_at (storage s') a = true ∧
    (∀ b, b ≠ a →
          whitelisted_at (storage s') b = whitelisted_at (storage s) b) ∧
    _balances (storage s') = _balances (storage s) ∧
    _totalSupply (storage s') = _totalSupply (storage s) ∧
    _paused (storage s') = _paused (storage s) ∧
    _owner (storage s') = _owner (storage s).
Proof.
  intros Hact Ho Ha. eexists. split.
  - apply exec_Ok. by apply handle_addUser.
  - simpl. unfold whitelisted_at, whitelisted; simpl.
    split; [by rewrite lookup_insert_eq|].
    split; [|done]. intros b Hb. by rewrite lookup_insert_ne.
Qed.

Lemma addUser_effect_witness :
  (active_implementation demo_upgraded = Some ID_V2 ∧
   caller_identity (mkEnv 9 1003) = _owner (storage demo_upgraded) ∧
   5 ≤ MAX_ADDRESS) ∧
  ∃ s',
    exec tutorial_registry (mkEnv 9 1003) "addUser" [VAddr 5] demo_upgraded
    = (s', Success VUnit) ∧
    whitelisted_at (storage s') 5 = true.
Proof.
  assert (active_implementation demo_upgraded = Some ID_V2) as H1
    by (by vm_compute).
  assert (caller_identity (mkEnv 9 1003) = _owner (storage demo_upgraded))
    as H2 by (by vm_compute).
  assert (5 ≤ MAX_ADDRESS) as H3 by (vm_compute; discriminate).
  split; [exact (conj H1 (conj H2 H3))|].
  destruct (addUser_effect demo_upgraded (mkEnv 9 1003) 5 H1 H2 H3)
    as (s' & Hs & Hw & _).
  by exists s'.
Defined.

Lemma step_addUser s env a :
  active_implementation s = Some ID_V2 →
  caller_identity env = _owner (storage s) →
  a ≤ MAX_ADDRESS →
  step tutorial_registry s (mkCall env "addUser" [VAddr a])
  = set_storage (whitelisted a (storage s)) s.
Proof.
  intros Hact Ho Ha.
  apply (step_Ok _ _ (mkCall env "addUser" [VAddr a]) VUnit).
  by apply handle_addUser.
Qed.

(** X12.  Under V2, whitelisting commutes and repeats harmlessly: called
    by the owner, [addUser(a)] then [addUser(b)] leaves the Instance
    exactly as [addUser(b)] then [addUser(a)] does, and [addUser(a)] twice
    exactly as once. *)
Theorem addUser_order_irrelevant (s : Instance) (e1 e2 e3 e4 : Env)
    (a b : address) :
  active_implementation s = Some ID_V2 →
  caller_identity e1 = _owner (storage s) →
  caller_identity e2 = _owner (storage s) →
  caller_identity e3 = _owner (storage s) →
  caller_identity e4 = _owner (storage s) →
  a ≤ MAX_ADDRESS → b ≤ MAX_ADDRESS →
  step tutorial_registry
    (step tutorial_registry s (mkCall e1 "addUser" [VAddr a]))
    (mkCall e2 "addUser" [VAddr b])
  = step tutorial_registry
      (step tutorial_registry s (mkCall e3 "addUser" [VAddr b]))
      (mkCall e4 "addUser" [VAddr a]) ∧
  step tutorial_registry
    (step tutorial_registry s (mkCall e1 "addUser" [VAddr a]))
    (mkCall e2 "addUser" [VAddr a])
  = step tutorial_registry s (mkCall e3 "addUser" [VAddr a]).
Proof.
  intros Hact H1 H2 H3 H4 Ha Hb.
  rewrite (step_addUser s e1 a), (step_addUser s e3 b),
    (step_addUser s e3 a) by done.
  rewrite !step_addUser by done. simpl.
  unfold whitelisted; simpl. split.
  - destruct (decide (a = b)) as [->|Hne]; [done|].
    by rewrite (insert_insert_ne _ a b).
  - by rewrite insert_insert_eq.
Qed.

Lemma addUser_order_irrelevant_witness :
  (active_implementation demo_upgraded = Some ID_V2 ∧
   caller_identity (mkEnv 9 1003) = _owner (storage demo_upgraded) ∧
   5 ≤ MAX_ADDRESS ∧ 6 ≤ MAX_ADDRESS) ∧
  step tutorial_registry
    (step tutorial_registry demo_upgraded
       (mkCall (mkEnv 9 1003) "addUser" [VAddr 5]))
    (mkCall (mkEnv 9 1003) "addUser" [VAddr 6])
  = step tutorial_registry
      (step tutorial_registry demo_upgraded
         (mkCall (mkEnv 9 1003) "addUser" [VAddr 6]))
      (mkCall (mkEnv 9 1003) "addUser" [VAddr 5]).
Proof.
  assert (active_implementation demo_upgraded = Some ID_V2) as H1
    by (by vm_compute).
  assert (caller_identity (mkEnv 9 1003) = _owner (storage demo_upgraded))
    as H2 by (by vm_compute).
  assert (5 ≤ MAX_ADDRESS) as H3 by (vm_compute; discriminate).
  assert (6 ≤ MAX_ADDRESS) as H4 by (vm_compute; discriminate).
  split; [exact (conj H1 (conj H2 (conj H3 H4)))|].
  exact (proj1 (addUser_order_irrelevant demo_upgraded (mkEnv 9 1003)
                  (mkEnv 9 1003) (mkEnv 9 1003) (mkEnv 9 1003) 5 6
                  H1 H2 H2 H2 H2 H3 H4)).
Defined.

(** X13.  Under V2 the zero address can be whitelisted but never minted
    to: [addUser(address(0))] by the owner succeeds and [verifyUser] then
    accepts it, yet every [mint] to it, by any caller and for any amount,
    still fails with "ERC20: mint to the zero address". *)
Theorem zero_address_listed_not_minted (s : Instance) (e_add e_mint : Env)
    (amount : N) :
  active_implementation s = Some ID_V2 →
  caller_identity e_add = _owner (storage s) →
  amount ≤ MAX_UINT256 →
  ∃ s',
    exec tutorial_registry e_add "addUser" [VAddr 0] s = (s', Success VUnit) ∧
    exec tutorial_registry e_mint "verifyUser" [VAddr 0] s'
    = (s', Success (VBool true)) ∧
    exec tutorial_registry e_mint "mint" [VAddr 0; VUint amount] s'
    = (s', Failure (Revert "ERC20: mint to the zero address")).
Proof.
  intros Hact Ho Hn.
  assert (0 ≤ MAX_ADDRESS) as H0 by (vm_compute; discriminate).
  eexists. split; [apply exec_Ok; by apply handle_addUser|].
  set (s' := set_storage _ s).
  assert (whitelisted_at (storage s') 0 = true) as Hw.
  { unfold s', whitelisted_at, whitelisted; simpl.
    by rewrite lookup_insert_eq. }
  split.
  - apply exec_Ok. by rewrite handle_verifyUser, Hw.
  - apply exec_Err.
    rewrite (handle_tutorial_business _ _ _ _ ID_V2 V2.impl) by done.
    run_method. rewrite (is_uint256_true _ Hn); simpl.
    fold (whitelisted_at (whitelisted 0 (storage s)) 0).
    change (whitelisted 0 (storage s)) with (storage s'). by rewrite Hw.
Qed.

Lemma zero_address_listed_not_minted_witness :
  (active_implementation demo_upgraded = Some ID_V2 ∧
   caller_identity (mkEnv 9 1003) = _owner (storage demo_upgraded) ∧
   50 ≤ MAX_UINT256) ∧
  exec tutorial_registry (mkEnv 6 1004) "mint" [VAddr 0; VUint 50]
    demo_zero_listed
  = (demo_zero_listed, Failure (Revert "ERC20: mint to the zero address")).
Proof.
  assert (active_implementation demo_upgraded = Some ID_V2) as H1
    by (by vm_compute).
  assert (caller_identity (mkEnv 9 1003) = _owner (storage demo_upgraded))
    as H2 by (by vm_compute).
  assert (50 ≤ MAX_UINT256) as H3 by (vm_compute; discriminate).
  split; [exact (conj H1 (conj H2 H3))|].
  destruct (zero_address_listed_not_minted demo_upgraded (mkEnv 9 1003)
              (mkEnv 6 1004) 50 H1 H2 H3) as (s' & Hs & _ & Hm).
  assert (s' = demo_zero_listed) as ->.
  { unfold demo_zero_listed, step.
    cbn [call_env call_selector call_args]. by rewrite Hs. }
  exact Hm.
Defined.

(** X18.  On every reachable Instance the zero address holds no tokens:
    [mint] refuses it as a recipient and so does every transfer. *)
Theorem zero_address_holds_nothing (s : Instance) :
  reachable s → balance_at (storage s) 0 = 0.
Proof.
  induction 1 as [initial admin _|s c _ IH _]; [done|].
  destruct (step_storage zero_balance_kept s c tutorial_zero_balance_kept)
    as [->|(sel & args & v & _ & H)]; [done|]. by apply H.
Qed.

Lemma zero_address_holds_nothing_witness :
  reachable demo_minted ∧ balance_at (storage demo_minted) 0 = 0.
Proof.
  split; [exact demo_minted_reachable|].
  exact (zero_address_holds_nothing demo_minted demo_minted_reachable).
Defined.

(** X19.  V1 does not tie minting to initialization: on a reachable
    Instance running V1 whose initializer has not run yet, anyone can mint,
    and the [initialize] call that follows keeps what was minted while
    making its own caller the owner. *)
Theorem mint_before_initialize (s : Instance) (e_mint e_init : Env)
    (to : address) (amount : N) (args : list val) :
  reachable s →
  active_implementation s = Some ID_V1 →
  _initialized (storage s) = 0 →
  to ≠ 0 → to ≤ MAX_ADDRESS →
  _totalSupply (storage s) + amount ≤ MAX_UINT256 →
  ∃ s1 s2,
    exec tutorial_registry e_mint "mint" [VAddr to; VUint amount] s
    = (s1, Success VUnit) ∧
    exec tutorial_registry e_init "initialize" args s1
    = (s2, Success VUnit) ∧
    balance_at (storage s2) to = balance_at (storage s) to + amount ∧
    _totalSupply (storage s2) = _totalSupply (storage s) + amount ∧
    _owner (storage s2) = caller_identity e_init.
Proof.
  intros Hreach Hact Hv Hz Ha Hsum.
  destruct (reachable_invariant s Hreach) as [_ [Hi _] Hu [Hbal Hmax]].
  destruct (Hu Hv) as [_ Hp].
  eexists _, _. split; [apply exec_Ok; by apply handle_mint_V1|].
  split.
  { apply exec_Ok.
    rewrite (handle_tutorial_business _ _ _ _ ID_V1 V1.impl) by done.
    apply forward_initialize_fresh; [by left|done..]. }
  simpl. split; [|done].
  change (balance_at (minted to amount (storage s)) to
          = balance_at (storage s) to + amount).
  rewrite balance_at_minted. apply unchecked_add_small.
  pose proof (sum_balances_lookup_le (_balances (storage s)) to).
  unfold balance_at. lia.
Qed.

Lemma demo_deployed_reachable : reachable demo_deployed.
Proof. apply reachable_deploy. by eexists. Qed.

Lemma mint_before_initialize_witness :
  (reachable demo_deployed ∧
   active_implementation demo_deployed = Some ID_V1 ∧
   _initialized (storage demo_deployed) = 0 ∧
   5 ≠ 0 ∧ 5 ≤ MAX_ADDRESS ∧
   _totalSupply (storage demo_deployed) + 100 ≤ MAX_UINT256) ∧
  ∃ s1 s2,
    exec tutorial_registry (mkEnv 5 999) "mint" [VAddr 5; VUint 100]
      demo_deployed
    = (s1, Success VUnit) ∧
    exec tutorial_registry (mkEnv 9 1000) "initialize" [] s1
    = (s2, Success VUnit) ∧
    balance_at (storage s2) 5 = balance_at (storage demo_deployed) 5 + 100.
Proof.
  assert (5 ≠ 0) as H1 by discriminate.
  assert (5 ≤ MAX_ADDRESS) as H2 by (vm_compute; discriminate).
  assert (_totalSupply (storage demo_deployed) + 100 ≤ MAX_UINT256) as H3
    by (vm_compute; discriminate).
  split.
  - exact (conj demo_deployed_reachable
             (conj eq_refl (conj eq_refl (conj H1 (conj H2 H3))))).
  - destruct (mint_before_initialize demo_deployed (mkEnv 5 999)
                (mkEnv 9 1000) 5 100 [] demo_deployed_reachable
                eq_refl eq_refl H1 H2 H3)
      as (s1 & s2 & E1 & E2 & B & _).
    by exists s1, s2.
Defined.

(** ** Ownership given up *)

Lemma step_renounced_frozen s c :
  caller_identity (call_env c) ≠ 0 →
  _owner (storage s) = 0 → _initialized (storage s) ≠ 0 →
  (_owner (storage (step tutorial_registry s c)) = 0 ∧
   _initialized (storage (step tutorial_registry s c)) ≠ 0) ∧
  _paused (storage (step tutorial_registry s c)) = _paused (storage s) ∧
  whitelistedAddresses (storage (step tutorial_registry s c))
  = whitelistedAddresses (storage s).
Proof.
  intros Hc Ho Hv.
  destruct (step_storage renounced_frozen s c tutorial_renounced_frozen)
    as [->|(sel & args & v & _ & H)]; [done|]. by apply H.
Qed.

(** X14.  Once an initialized Instance has no owner (the owner called
    [renounceOwnership]), [pause], [unpause] and [addUser] are out of reach
    for good: whatever calls follow, the owner stays the zero address, the
    Instance stays paused or unpaused as it was, and the whitelist never
    changes again. *)
Theorem no_owner_is_final (s : Instance) (cs : list call) :
  _owner (storage s) = 0 →
  _initialized (storage s) ≠ 0 →
  (∀ c, c ∈ cs → caller_identity (call_env c) ≠ 0) →
  _owner (storage (run tutorial_registry s cs)) = 0 ∧
  _paused (storage (run tutorial_registry s cs)) = _paused (storage s) ∧
  whitelistedAddresses (storage (run tutorial_registry s cs))
  = whitelistedAddresses (storage s).
Proof.
  revert s. induction cs as [|c cs IH]; simpl; intros s Ho Hv Hcs; [done|].
  destruct (step_renounced_frozen s c) as ([Ho' Hv'] & Hp & Hw);
    [apply Hcs; by left|done|done|].
  destruct (IH (step tutorial_registry s c) Ho' Hv') as (? & Hp' & Hw').
  { intros c' Hin. apply Hcs. by right. }
  split; [done|]. split; congruence.
Qed.

Lemma no_owner_is_final_witness :
  (_owner (storage demo_renounced) = 0 ∧
   _initialized (storage demo_renounced) ≠ 0) ∧
  _paused
    (storage
       (run tutorial_registry demo_renounced
          [mkCall (mkEnv 9 1003) "pause" [];
           mkCall (mkEnv 7 1004) "upgrade" [VUint 1];
           mkCall (mkEnv 9 1005) "addUser" [VAddr 5]]))
  = _paused (storage demo_renounced).
Proof.
  assert (_owner (storage demo_renounced) = 0) as H1 by (by vm_compute).
  assert (_initialized (storage demo_renounced) ≠ 0) as H2
    by (by vm_compute).
  split; [exact (conj H1 H2)|].
  refine (proj1 (proj2 (no_owner_is_final demo_renounced _ H1 H2 _))).
  intros c Hin.
  repeat (apply elem_of_cons in Hin as [->|Hin]; [discriminate|]).
  by apply elem_of_nil in Hin.
Defined.

(** ** Right after the first upgrade *)

(** X15.  An Instance deployed on V1 and never upgraded before: right after
    its upgrade to V2 every [mint], to any address, for any amount and by
    any caller, fails; minting stays closed until the owner whitelists a
    recipient. *)
Theorem first_upgrade_closes_mint (admin to : address) (amount : N)
    (cs : list call) (env env' : Env) :
  to ≤ MAX_ADDRESS → amount ≤ MAX_UINT256 →
  caller_identity env
  = admin_identity (run tutorial_registry (deploy ID_V1 admin) cs) →
  upgrade_log (run tutorial_registry (deploy ID_V1 admin) cs) = [] →
  ∃ s',
    exec tutorial_registry env "upgrade" [VUint 1]
      (run tutorial_registry (deploy ID_V1 admin) cs)
    = (s', Success VUnit) ∧
    exec tutorial_registry env' "mint" [VAddr to; VUint amount] s'
    = (s', Failure (Revert EmptyString)).
Proof.
  intros Ha Hn Hadm Hlog.
  destruct (never_upgraded_whitelist_empty admin cs Hlog) as [Hact Hw].
  set (s := run tutorial_registry (deploy ID_V1 admin) cs) in *.
  eexists. split.
  - apply exec_Ok.
    by apply (upgrade_by_admin tutorial_registry env ID_V2 V2.impl).
  - apply exec_Err, handle_mint_V2_not_whitelisted; try done.
    unfold whitelisted_at; simpl. by rewrite Hw.
Qed.

Lemma first_upgrade_closes_mint_witness :
  (5 ≤ MAX_ADDRESS ∧ 100 ≤ MAX_UINT256) ∧
  ∃ s',
    exec tutorial_registry (mkEnv 7 1002) "upgrade" [VUint 1]
      (run tutorial_registry (deploy ID_V1 7)
         [mkCall (mkEnv 9 1000) "initialize" [];
          mkCall (mkEnv 5 1001) "mint" [VAddr 5; VUint 100]])
    = (s', Success VUnit) ∧
    exec tutorial_registry (mkEnv 5 1003) "mint" [VAddr 5; VUint 100] s'
    = (s', Failure (Revert EmptyString)).
Proof.
  assert (5 ≤ MAX_ADDRESS) as H1 by (vm_compute; discriminate).
  assert (100 ≤ MAX_UINT256) as H2 by (vm_compute; discriminate).
  split; [exact (conj H1 H2)|].
  apply (first_upgrade_closes_mint 7 5 100 _ (mkEnv 7 1002) (mkEnv 5 1003)
           H1 H2); by vm_compute.
Defined.

(** ** The scripts *)

(** X16.  [main] of the deploy script never fails: it registers V1 as the
    first implementation and leaves an Instance that runs V1, is
    initialized, is owned by the deployer, is not paused and holds no
    tokens; that Instance is the one reached by deploying and then calling
    [initialize]. *)
Theorem deploy_main_result (deployer admin : address) (now : N) :
  ∃ s,
    deploy_main deployer admin now = Ok ([V1.impl], s) ∧
    s = step tutorial_registry (deploy ID_V1 admin)
          (mkCall (mkEnv deployer now) "initialize" []) ∧
    active_implementation s = Some ID_V1 ∧
    admin_identity s = admin ∧
    upgrade_log s = [] ∧
    _initialized (storage s) = 1 ∧
    _owner (storage s) = deployer ∧
    _paused (storage s) = false ∧
    _balances (storage s) = ∅ ∧
    _totalSupply (storage s) = 0.
Proof.
  exists (set_storage (initialized_storage deployer empty_storage)
            (deploy ID_V1 admin)).
  split; [|split; [|by repeat split]].
  - unfold deploy_main, deployProxy, register. cbn [length app].
    change (handle [V1.impl] (mkEnv deployer now) "initialize" []
              (deploy 0 admin))
      with (forward V1.impl (mkEnv deployer now) "initialize" []
              (deploy ID_V1 admin)).
    by rewrite forward_initialize_fresh; [|left|..].
  - symmetry.
    apply (step_Ok _ _ (mkCall (mkEnv deployer now) "initialize" []) VUnit).
    exact (handle_initialize_deployed (mkEnv deployer now) [] ID_V1 admin
             V1.impl eq_refl).
Qed.

(** X17.  [main] of the upgrade script, run on the registry and an Instance
    the deploy script left behind: called by the admin it registers V2 as
    the second implementation and switches the Instance to it, appending
    one record to the upgrade log and touching nothing in the storage;
    called by anyone else it fails with [Unauthorized]. *)
Theorem upgrade_main_result (s : Instance) (env : Env) :
  (caller_identity env = admin_identity s →
   upgrade_main [V1.impl] s env
   = Ok (tutorial_registry,
         append_record
           (mkUpgradeRecord (timestamp env) (active_implementation s) ID_V2
              (caller_identity env))
           (set_active ID_V2 s))) ∧
  (caller_identity env ≠ admin_identity s →
   upgrade_main [V1.impl] s env = Err Unauthorized).
Proof.
  unfold upgrade_main, upgradeProxy, register.
  cbn [length app fst snd]. split.
  - intros Hadm.
    by rewrite (upgrade_by_admin [V1.impl; V2.impl] env 1 V2.impl).
  - intros Hne%N.eqb_neq.
    change [V1.impl; V2.impl] with tutorial_registry.
    unfold handle. change (is_management "upgrade") with true.
    cbn iota. rewrite Hne.
    destruct (active_code tutorial_registry s) as [impl|] eqn:Hcode; [|done].
    by rewrite (tutorial_no_clash s impl "upgrade").
Qed.

Lemma upgrade_main_result_witness :
  caller_identity (mkEnv 7 1002) = admin_identity demo_minted ∧
  upgrade_main [V1.impl] demo_minted (mkEnv 7 1002)
  = Ok (tutorial_registry, demo_upgraded).
Proof.
  assert (caller_identity (mkEnv 7 1002) = admin_identity demo_minted)
    as H by (by vm_compute).
  split; [exact H|].
  rewrite (proj1 (upgrade_main_result demo_minted (mkEnv 7 1002)) H).
  assert (append_record
            (mkUpgradeRecord (timestamp (mkEnv 7 1002))
               (active_implementation demo_minted) ID_V2
               (caller_identity (mkEnv 7 1002)))
            (set_active ID_V2 demo_minted) = demo_upgraded) as ->
    by (by vm_compute).
  reflexivity.
Defined.
